(** * NextUp: the timer store, the time projection and the keypad parser

    A shallow embedding of [src/App.jsx] of the NextUp production timer and
    the proofs of its specified properties.

    Conventions of the embedding.
    - Every number of the program is an integer-valued JS number (epoch
      milliseconds, durations in milliseconds, two-digit fields); they are
      modelled as [Z].  No overflow or rounding occurs at these magnitudes.
    - [null] is [None].
    - Each read of the clock ([Date.now()], [new Date()]) is an explicit
      argument of the function that performs it.
    - React state ([useState], [useRef]) is the record [State]; an updater
      passed to [setTimers] is a function on the timer list.  The state that
      only the rendering reads (the options panel, the rehearsal/live
      toggle, the last tick) is left out. *)

From Stdlib Require Import ZArith Lia List Ascii String.
From stdpp Require Import base decidable option list strings pretty gmap.

Local Open Scope Z_scope.

(** ** JavaScript string primitives used by the program

    The keypad buffer is a JS string; it is modelled as the list of its
    characters. *)
Module JS.

Definition charCode (c : ascii) : Z := Z.of_N (N_of_ascii c).

(** [\d]: an ASCII decimal digit. *)
Definition isDigit (c : ascii) : bool :=
  (48 <=? charCode c) && (charCode c <=? 57).

(** [s.replace(/\D/g, '')] *)
Definition stripNonDigits (s : list ascii) : list ascii :=
  List.filter isDigit s.

(** [s.slice(-n)] for [n > 0]: the last [n] characters, or all of them. *)
Definition sliceLast (n : nat) (s : list ascii) : list ascii :=
  drop (length s - n)%nat s.

(** [s.slice(a, b)] for [0 <= a <= b]. *)
Definition slice (a b : nat) (s : list ascii) : list ascii :=
  take (b - a)%nat (drop a s).

(** [s.slice(0, -1)] *)
Definition sliceDropLast (s : list ascii) : list ascii :=
  take (length s - 1)%nat s.

(** [s.padStart(n, c)] *)
Definition padStart (n : nat) (c : ascii) (s : list ascii) : list ascii :=
  replicate (n - length s)%nat c ++ s.

(** [Number(s)] on a string of decimal digits ([Number('') = 0]). *)
Definition toNumber (s : list ascii) : Z :=
  fold_left (fun acc c => 10 * acc + (charCode c - 48)) s 0.

(** A string is truthy iff it is not empty. *)
Definition truthy (s : string) : bool :=
  match s with EmptyString => false | String _ _ => true end.

End JS.

(** ** Data model *)

Inductive TimerMode := CountUp | CountDown | CountTo.

Record Timer := mkTimer {
  id : string;
  label : string;
  mode : TimerMode;
  running : bool;
  startEpochMs : option Z;
  baseMs : Z;
  countdownInitialMs : Z;
  countToTargetEpochMs : option Z;
}.

Record Hms := mkHms { h : Z; m : Z; s : Z }.

Inductive ClearBehavior := resetAll | keepTarget.

(** ** Pure helpers of the module *)

Definition clamp (n min max : Z) : Z := Z.min max (Z.max min n).

Definition parseKeypadDigitsToHms (digits : list ascii) : Hms :=
  let d := JS.sliceLast 6 (JS.stripNonDigits digits) in
  let padded := JS.padStart 6 "0"%char d in
  let h := JS.toNumber (JS.slice 0 2 padded) in
  let m := JS.toNumber (JS.slice 2 4 padded) in
  let s := JS.toNumber (JS.slice 4 6 padded) in
  {| h := clamp h 0 99; m := clamp m 0 59; s := clamp s 0 59 |}.

Definition hmsToMs (x : Hms) : Z :=
  ((h x * 60 + m x) * 60 + s x) * 1000.

Definition makeTimer (id label : string) : Timer :=
  {| id := id; label := label; mode := CountUp; running := false;
     startEpochMs := None; baseMs := 0; countdownInitialMs := 0;
     countToTargetEpochMs := None |}.

Definition computeDisplayMs (timer : Timer) (nowEpochMs : Z)
    (allowNegativeTime : bool) : Z :=
  let elapsedRaw :=
    match running timer, startEpochMs timer with
    | true, Some start => nowEpochMs - start
    | _, _ => 0
    end in
  let elapsed := Z.max 0 elapsedRaw in
  let currentBaseMs := baseMs timer + elapsed in
  match mode timer with
  | CountUp => currentBaseMs
  | CountDown =>
      let remaining := countdownInitialMs timer - currentBaseMs in
      if allowNegativeTime then remaining else Z.max 0 remaining
  | CountTo =>
      match countToTargetEpochMs timer with
      | None => 0
      | Some target =>
          let remaining := if running timer then target - nowEpochMs
                           else baseMs timer in
          if allowNegativeTime then remaining else Z.max 0 remaining
      end
  end.

(** ** The host's [Date] object

    The part of ECMA-262's time arithmetic that [getTodayTargetEpochMs] and
    [formatClockFromEpochMs] go through.  The local time zone adjustment
    [LocalTZA t isUTC] belongs to the host and is a parameter. *)
Module JSDate.

Definition msPerSecond : Z := 1000.
Definition msPerMinute : Z := 60000.
Definition msPerHour : Z := 3600000.
Definition msPerDay : Z := 86400000.

Definition Day (t : Z) : Z := t / msPerDay.
Definition TimeWithinDay (t : Z) : Z := t mod msPerDay.
Definition HourFromTime (t : Z) : Z := (t / msPerHour) mod 24.
Definition MinFromTime (t : Z) : Z := (t / msPerMinute) mod 60.
Definition SecFromTime (t : Z) : Z := (t / msPerSecond) mod 60.
Definition msFromTime (t : Z) : Z := t mod msPerSecond.

Definition MakeTime (hour min sec ms : Z) : Z :=
  hour * msPerHour + min * msPerMinute + sec * msPerSecond + ms.
Definition MakeDate (day time : Z) : Z := day * msPerDay + time.

Section Local.
Variable LocalTZA : Z -> bool -> Z.

Definition LocalTime (t : Z) : Z := t + LocalTZA t true.
Definition UTC (t : Z) : Z := t - LocalTZA t false.

Definition getHours (t : Z) : Z := HourFromTime (LocalTime t).
Definition getMinutes (t : Z) : Z := MinFromTime (LocalTime t).
Definition getSeconds (t : Z) : Z := SecFromTime (LocalTime t).
Definition getMilliseconds (t : Z) : Z := msFromTime (LocalTime t).

(** The local calendar day of an instant, as a day number. *)
Definition localDay (t : Z) : Z := Day (LocalTime t).

(** [d.setHours(hour, min, sec, ms)] *)
Definition setHours (t hour min sec ms : Z) : Z :=
  UTC (MakeDate (Day (LocalTime t)) (MakeTime hour min sec ms)).

(** [d.setDate(d.getDate() + 1)]: [MakeDay] carries the day past the end
    of a month, so the result is the next local day at the same local
    time within the day. *)
Definition setDateNextDay (t : Z) : Z :=
  let lt := LocalTime t in
  UTC (MakeDate (Day lt + 1) (TimeWithinDay lt)).
End Local.

End JSDate.

(** ** The timer store *)

Record State := mkState {
  timers : list Timer;
  selectedTimerId : string;
  keypadDigits : list ascii;
  clearBehavior : ClearBehavior;
  allowNegativeTime : bool;
  nextTimerNumber : nat;   (* nextTimerNumberRef.current *)
}.

(** [`T${n}`] and [`Timer ${n}`] *)
Definition timerIdOf (n : nat) : string := "T" +:+ pretty n.
Definition timerLabelOf (n : nat) : string := "Timer " +:+ pretty n.

(** [INITIAL_TIMER_DEFS] holds the labels of the timers created at start. *)
Definition INITIAL_TIMER_DEFS : list string := ["Timer 1"; "Timer 2"]%string.

Definition initialState : State :=
  {| timers := imap (fun idx lbl => makeTimer (timerIdOf (idx + 1)) lbl)
                    INITIAL_TIMER_DEFS;
     selectedTimerId := "T1";
     keypadDigits := [];
     clearBehavior := resetAll;
     allowNegativeTime := false;
     nextTimerNumber := length INITIAL_TIMER_DEFS + 1 |}.

Definition setTimers (st : State) (next : list Timer) : State :=
  {| timers := next; selectedTimerId := selectedTimerId st;
     keypadDigits := keypadDigits st; clearBehavior := clearBehavior st;
     allowNegativeTime := allowNegativeTime st;
     nextTimerNumber := nextTimerNumber st |}.

Definition setSelectedTimerId (st : State) (sel : string) : State :=
  {| timers := timers st; selectedTimerId := sel;
     keypadDigits := keypadDigits st; clearBehavior := clearBehavior st;
     allowNegativeTime := allowNegativeTime st;
     nextTimerNumber := nextTimerNumber st |}.

Definition setKeypadDigits (st : State) (digits : list ascii) : State :=
  {| timers := timers st; selectedTimerId := selectedTimerId st;
     keypadDigits := digits; clearBehavior := clearBehavior st;
     allowNegativeTime := allowNegativeTime st;
     nextTimerNumber := nextTimerNumber st |}.

Definition setClearBehavior (st : State) (b : ClearBehavior) : State :=
  {| timers := timers st; selectedTimerId := selectedTimerId st;
     keypadDigits := keypadDigits st; clearBehavior := b;
     allowNegativeTime := allowNegativeTime st;
     nextTimerNumber := nextTimerNumber st |}.

Definition setAllowNegativeTime (st : State) (b : bool) : State :=
  {| timers := timers st; selectedTimerId := selectedTimerId st;
     keypadDigits := keypadDigits st; clearBehavior := clearBehavior st;
     allowNegativeTime := b;
     nextTimerNumber := nextTimerNumber st |}.

(** [timers.find((t) => t.id === selectedTimerId) ?? timers[0]];
    [None] stands for [undefined] (an empty list). *)
Definition selectedTimer (st : State) : option Timer :=
  match List.find (fun t => bool_decide (id t = selectedTimerId st)) (timers st) with
  | Some t => Some t
  | None => head (timers st)
  end.

(** *** The auto-stop watchdog: the body of the [prev.map] callback *)
Definition watchdogStep (now : Z) (t : Timer) : Timer :=
  if negb (running t) then t
  else match mode t with
       | CountDown =>
           let ms := computeDisplayMs t now false in
           if 0 <? ms then t
           else {| id := id t; label := label t; mode := mode t;
                   running := false; startEpochMs := None;
                   baseMs := countdownInitialMs t;
                   countdownInitialMs := countdownInitialMs t;
                   countToTargetEpochMs := countToTargetEpochMs t |}
       | CountTo =>
           match countToTargetEpochMs t with
           | None => t
           | Some target =>
               let remaining := target - now in
               if 0 <? remaining then t
               else {| id := id t; label := label t; mode := mode t;
                       running := false; startEpochMs := None;
                       baseMs := 0;
                       countdownInitialMs := countdownInitialMs t;
                       countToTargetEpochMs := countToTargetEpochMs t |}
           end
       | CountUp => t
       end.

(** The effect itself.  The callback reads the clock once for each timer
    it examines; [clock i] is the sample read for the timer at index [i]. *)
Definition watchdog (st : State) (clock : nat -> Z) : State :=
  if allowNegativeTime st then st
  else setTimers st (imap (fun i t => watchdogStep (clock i) t) (timers st)).

Definition updateTimer (timerId : string) (updater : Timer -> Timer)
    (prev : list Timer) : list Timer :=
  map (fun t => if bool_decide (id t = timerId) then updater t else t) prev.

Definition addTimer (st : State) : State :=
  let n := nextTimerNumber st in
  let id := timerIdOf n in
  {| timers := timers st ++ [makeTimer id (timerLabelOf n)];
     selectedTimerId := id;
     keypadDigits := keypadDigits st; clearBehavior := clearBehavior st;
     allowNegativeTime := allowNegativeTime st;
     nextTimerNumber := (n + 1)%nat |}.

Definition deleteTimer (st : State) (timerId : string) : State :=
  let prev := timers st in
  if (length prev <=? 1)%nat then st
  else
    let next := filter (fun t => id t <> timerId) prev in
    if (length next =? length prev)%nat then st
    else
      let st' :=
        if bool_decide (selectedTimerId st = timerId) then
          match next with
          | t :: _ => if JS.truthy (id t) then setSelectedTimerId st (id t)
                      else st
          | [] => st
          end
        else st in
      setTimers st' next.

(** The updater of [pauseTimer]; [now] is its [Date.now()]. *)
Definition pauseUpdater (now : Z) (t : Timer) : Timer :=
  if negb (running t) then t
  else
    let elapsed := match startEpochMs t with
                   | Some start => now - start
                   | None => 0
                   end in
    {| id := id t; label := label t; mode := mode t;
       running := false; startEpochMs := None;
       baseMs := baseMs t + elapsed;
       countdownInitialMs := countdownInitialMs t;
       countToTargetEpochMs := countToTargetEpochMs t |}.

Definition pauseTimer (st : State) (timerId : string) (now : Z) : State :=
  setTimers st (updateTimer timerId (pauseUpdater now) (timers st)).

(** The updater of [clearTimer]. *)
Definition clearUpdater (behavior : ClearBehavior) (t : Timer) : Timer :=
  match behavior with
  | keepTarget =>
      {| id := id t; label := label t; mode := mode t;
         running := false; startEpochMs := None; baseMs := 0;
         countdownInitialMs := countdownInitialMs t;
         countToTargetEpochMs := countToTargetEpochMs t |}
  | resetAll =>
      {| id := id t; label := label t; mode := mode t;
         running := false; startEpochMs := None; baseMs := 0;
         countdownInitialMs := 0;
         countToTargetEpochMs := None |}
  end.

Definition clearTimer (st : State) (timerId : string) : State :=
  setKeypadDigits
    (setTimers st (updateTimer timerId (clearUpdater (clearBehavior st)) (timers st)))
    [].

(** The updater of [setModeForSelectedTimer]. *)
Definition setModeUpdater (mode' : TimerMode) (now : Z) (t : Timer) : Timer :=
  let wasRunning := running t in
  let elapsed := match wasRunning, startEpochMs t with
                 | true, Some start => now - start
                 | _, _ => 0
                 end in
  let nextBaseMs := if wasRunning then baseMs t + elapsed else baseMs t in
  {| id := id t; label := label t; mode := mode';
     running := false; startEpochMs := None;
     baseMs := match mode' with CountUp => nextBaseMs | _ => 0 end;
     countdownInitialMs := countdownInitialMs t;
     countToTargetEpochMs := countToTargetEpochMs t |}.

Definition setModeForSelectedTimer (st : State) (mode' : TimerMode) (now : Z)
    : State :=
  setTimers st
    (updateTimer (selectedTimerId st) (setModeUpdater mode' now) (timers st)).

Section Start.
Variable LocalTZA : Z -> bool -> Z.

(** [nowDate] is the instant of the function's own [new Date()]. *)
Definition getTodayTargetEpochMs (x : Hms) (nowDate : Z) : Z :=
  let target := JSDate.setHours LocalTZA nowDate (h x) (m x) (s x) 0 in
  if target <=? nowDate then JSDate.setDateNextDay LocalTZA target
  else target.

(** The body of the [prev.map] callback of [startSelectedTimer] for the
    selected timer, after the test of its id.  [hms] is the parsed keypad
    buffer, or [None] when the buffer was empty; [now] is the callback's
    [Date.now()]. *)
Definition startUpdater (hms : option Hms) (allowNegativeTime : bool)
    (now nowDate : Z) (t : Timer) : Timer :=
  if running t then t
  else
    let next :=
      match hms with
      | Some x =>
          let ms := hmsToMs x in
          match mode t with
          | CountUp =>
              {| id := id t; label := label t; mode := mode t;
                 running := false; startEpochMs := None; baseMs := ms;
                 countdownInitialMs := countdownInitialMs t;
                 countToTargetEpochMs := countToTargetEpochMs t |}
          | CountDown =>
              {| id := id t; label := label t; mode := mode t;
                 running := false; startEpochMs := None; baseMs := 0;
                 countdownInitialMs := ms;
                 countToTargetEpochMs := countToTargetEpochMs t |}
          | CountTo =>
              let targetEpochMs := getTodayTargetEpochMs x nowDate in
              let remaining := targetEpochMs - now in
              {| id := id t; label := label t; mode := mode t;
                 running := false; startEpochMs := None;
                 baseMs := if allowNegativeTime then remaining
                           else Z.max 0 remaining;
                 countdownInitialMs := countdownInitialMs t;
                 countToTargetEpochMs := Some targetEpochMs |}
          end
      | None => t
      end in
    let next :=
      match mode next, countToTargetEpochMs next with
      | CountTo, Some target =>
          let remaining := target - now in
          {| id := id next; label := label next; mode := mode next;
             running := running next; startEpochMs := startEpochMs next;
             baseMs := if allowNegativeTime then remaining
                       else Z.max 0 remaining;
             countdownInitialMs := countdownInitialMs next;
             countToTargetEpochMs := countToTargetEpochMs next |}
      | _, _ => next
      end in
    {| id := id next; label := label next; mode := mode next;
       running := true; startEpochMs := Some now;
       baseMs := baseMs next;
       countdownInitialMs := countdownInitialMs next;
       countToTargetEpochMs := countToTargetEpochMs next |}.

Definition startSelectedTimer (st : State) (now nowDate : Z) : State :=
  let digits := keypadDigits st in
  let hms := if (0 <? length digits)%nat
             then Some (parseKeypadDigitsToHms digits) else None in
  let st' :=
    setTimers st
      (map (fun t =>
              if bool_decide (id t <> selectedTimerId st) then t
              else startUpdater hms (allowNegativeTime st) now nowDate t)
           (timers st)) in
  if (0 <? length digits)%nat then setKeypadDigits st' [] else st'.

(** The negative-time select of the options panel.  It fires on a change
    only; the watchdog effect has [allowNegativeTime] among its
    dependencies, so it runs once the new value is in place. *)
Definition changeAllowNegativeTime (st : State) (b : bool) (clock : nat -> Z)
    : State :=
  if Bool.eqb b (allowNegativeTime st) then st
  else watchdog (setAllowNegativeTime st b) clock.

(** *** Intents dispatched by the user interface and the tick driver *)
Inductive Intent :=
| AddTimer
| DeleteTimer (timerId : string)
| SelectTimer (timerId : string)
| SetMode (mode' : TimerMode) (now : Z)
| StartOrPause (now nowDate : Z)
| ClearSelected
| AppendDigit (d : ascii)
| DeleteDigit
| ClearDigits
| SetClearBehavior (b : ClearBehavior)
| SetAllowNegativeTime (b : bool) (clock : nat -> Z)
| Tick (clock : nat -> Z).

Definition dispatch (st : State) (i : Intent) : State :=
  match i with
  | AddTimer => addTimer st
  | DeleteTimer timerId => deleteTimer st timerId
  | SelectTimer timerId => setSelectedTimerId st timerId
  | SetMode mode' now => setModeForSelectedTimer st mode' now
  | StartOrPause now nowDate =>
      match selectedTimer st with
      | Some t =>
          if running t then pauseTimer st (selectedTimerId st) now
          else startSelectedTimer st now nowDate
      | None => st   (* reading [running] of [undefined] throws *)
      end
  | ClearSelected => clearTimer st (selectedTimerId st)
  | AppendDigit d =>
      setKeypadDigits st (JS.sliceLast 6 (keypadDigits st ++ [d]))
  | DeleteDigit => setKeypadDigits st (JS.sliceDropLast (keypadDigits st))
  | ClearDigits => setKeypadDigits st []
  | SetClearBehavior b => setClearBehavior st b
  | SetAllowNegativeTime b clock => changeAllowNegativeTime st b clock
  | Tick clock => watchdog st clock
  end.

Definition run (st : State) (intents : list Intent) : State :=
  fold_left dispatch intents st.

(** The states the application can be in. *)
Definition reachable (st : State) : Prop :=
  exists intents, st = run initialState intents.
End Start.

(** ** Notions used in the statements *)

(** The timer [{...t, baseMs: b}]. *)
Definition withBaseMs (t : Timer) (b : Z) : Timer :=
  {| id := id t; label := label t; mode := mode t; running := running t;
     startEpochMs := startEpochMs t; baseMs := b;
     countdownInitialMs := countdownInitialMs t;
     countToTargetEpochMs := countToTargetEpochMs t |}.

(** What the watchdog leaves of a [CountDown] timer it stops. *)
Definition countdownStopped (t : Timer) : Timer :=
  {| id := id t; label := label t; mode := mode t;
     running := false; startEpochMs := None;
     baseMs := countdownInitialMs t;
     countdownInitialMs := countdownInitialMs t;
     countToTargetEpochMs := countToTargetEpochMs t |}.

(** A sequence of mode switches applied to one timer, each with the clock
    sample of its click. *)
Definition setModes (switches : list (TimerMode * Z)) (t : Timer) : Timer :=
  fold_left (fun acc sw => setModeUpdater (fst sw) (snd sw) acc) switches t.

Definition setModesForSelectedTimer (switches : list (TimerMode * Z))
    (st : State) : State :=
  fold_left (fun acc sw => setModeForSelectedTimer acc (fst sw) (snd sw))
            switches st.

(** A host whose local time is UTC, for the concrete runs below. *)
Definition utcZone : Z -> bool -> Z := fun _ _ => 0.

(** A host with a fixed offset of one hour east of UTC. *)
Definition cetZone : Z -> bool -> Z := fun _ _ => 3600000.

(** The ids of the timers of the store, in order. *)
Definition timerIds (st : State) : list string := id <$> timers st.

(** The store invariant: there is a timer, no two timers share an id, and
    every id was issued from a number below [nextTimerNumber]. *)
Definition storeInvariant (st : State) : Prop :=
  timers st <> [] /\
  NoDup (timerIds st) /\
  Forall (fun i => exists k, i = timerIdOf k /\ (k < nextTimerNumber st)%nat)
         (timerIds st).

(** ** Formatting and the texts of the timer list *)

(** [String(n).padStart(2, '0')] *)
Definition pad2 (n : Z) : string :=
  string_of_list_ascii
    (JS.padStart 2 "0"%char (list_ascii_of_string (pretty n))).

Definition formatClockFromEpochMs (LocalTZA : Z -> bool -> Z) (epochMs : Z)
    : string :=
  pad2 (JSDate.getHours LocalTZA epochMs) +:+ ":" +:+
  pad2 (JSDate.getMinutes LocalTZA epochMs) +:+ ":" +:+
  pad2 (JSDate.getSeconds LocalTZA epochMs).

Definition formatHmsFromMs (ms : Z) : string :=
  let abs := Z.abs ms in
  let totalSeconds := abs / 1000 in
  let h := totalSeconds / 3600 in
  let m := (totalSeconds mod 3600) / 60 in
  let s := totalSeconds mod 60 in
  pad2 h +:+ ":" +:+ pad2 m +:+ ":" +:+ pad2 s.

(** The memo [keypadPreview], over the memo [keypadHms]. *)
Definition keypadPreview (st : State) : string :=
  let keypadHms := parseKeypadDigitsToHms (keypadDigits st) in
  pad2 (h keypadHms) +:+ ":" +:+ pad2 (m keypadHms) +:+ ":" +:+
  pad2 (s keypadHms).

(** The text stored for one timer by the loop of [timerTargetTextById]. *)
Definition targetTextOf (LocalTZA : Z -> bool -> Z) (st : State) (t : Timer)
    : string :=
  if bool_decide (id t = selectedTimerId st)
     && (0 <? length (keypadDigits st))%nat
  then keypadPreview st
  else match mode t with
       | CountDown => formatHmsFromMs (countdownInitialMs t)
       | CountTo =>
           match countToTargetEpochMs t with
           | Some target => formatClockFromEpochMs LocalTZA target
           | None => "00:00:00"
           end
       | CountUp => "00:00:00"
       end.

(** The memo [timerTargetTextById]: an object filled in the order of the
    timer list, a later timer overwriting the entry of an equal id. *)
Definition timerTargetTextById (LocalTZA : Z -> bool -> Z) (st : State)
    : gmap string string :=
  foldl (fun map t => <[id t := targetTextOf LocalTZA st t]> map) ∅ (timers st).

(** ** Notions used in the further properties *)

(** The decimal digit character of a value in [0, 9]. *)
Definition digitChar (k : Z) : ascii := ascii_of_N (Z.to_N (48 + k)).

(** The intents the user interface can issue in a state: a timer is
    selected or deleted through its own card, and the keypad has the ten
    digit keys. *)
Definition uiIssued (st : State) (i : Intent) : Prop :=
  match i with
  | SelectTimer timerId => timerId ∈ timerIds st
  | DeleteTimer timerId => timerId ∈ timerIds st
  | AppendDigit d => JS.isDigit d = true
  | _ => True
  end.

(** The states reached through such intents. *)
Inductive uiReachable (LocalTZA : Z -> bool -> Z) : State -> Prop :=
| uiReachable_initial : uiReachable LocalTZA initialState
| uiReachable_step (st : State) (i : Intent) :
    uiReachable LocalTZA st -> uiIssued st i ->
    uiReachable LocalTZA (dispatch LocalTZA st i).

(** The longest duration the keypad can express, 99:59:59. *)
Definition maxKeypadMs : Z := 359999000.

(** A timer is running exactly when it holds a start instant, and its
    countdown duration is one the keypad can express. *)
Definition timerConsistent (t : Timer) : Prop :=
  (running t = true <-> startEpochMs t <> None) /\
  0 <= countdownInitialMs t <= maxKeypadMs.

(** ** Notions used for the target of a [CountTo] start *)

(** A host in Berlin around the change to summer time of 29 March 2026 at
    01:00 UTC: one hour east of UTC before it, two hours after.  A local
    time that the change skips is read with the offset in force before the
    change, as ECMA-262 has it. *)
Definition berlinZone (t : Z) (isUTC : bool) : Z :=
  if isUTC then (if t <? 1774746000000 then 3600000 else 7200000)
  else (if t <? 1774746000000 + 7200000 then 3600000 else 7200000).

(** The target as the specification words it: the instant at which the
    local clock reads [h:m:s], on the local day of the start, or on the
    next day and then only if that time of day has already passed. *)
Definition targetAsClaimed (LocalTZA : Z -> bool -> Z) (x : Hms)
    (nowDate target : Z) : Prop :=
  JSDate.getHours LocalTZA target = h x /\
  JSDate.getMinutes LocalTZA target = m x /\
  JSDate.getSeconds LocalTZA target = s x /\
  (JSDate.localDay LocalTZA target = JSDate.localDay LocalTZA nowDate \/
   (JSDate.localDay LocalTZA target = JSDate.localDay LocalTZA nowDate + 1 /\
    hmsToMs x < JSDate.TimeWithinDay (JSDate.LocalTime LocalTZA nowDate))).

(** * Properties *)

(** Break a timer into its fields and compute. *)
Ltac timer_cases t :=
  destruct t as [tid tlabel tmode [|] [start|] base cdInit [target|]];
  simpl in *.

(** ** Time projection *)

Lemma computeDisplayMs_clamped (t : Timer) (now : Z) :
  mode t <> CountUp -> 0 <= computeDisplayMs t now false.
Proof.
  intros Hm. unfold computeDisplayMs.
  destruct (mode t); [congruence| lia |].
  destruct (countToTargetEpochMs t); lia.
Qed.

(** C6: in [CountTo] mode the projection is total; it is [0] without a
    target; with a target it is [target - now] while running, whatever
    [baseMs] holds, and [baseMs] while paused; both are clamped at [0]
    unless negative time is allowed. *)
Theorem computeDisplayMs_CountTo (t : Timer) (now : Z) (allowNeg : bool) :
  mode t = CountTo ->
  (countToTargetEpochMs t = None -> computeDisplayMs t now allowNeg = 0) /\
  (forall target, countToTargetEpochMs t = Some target ->
     (running t = true ->
        computeDisplayMs t now allowNeg
          = (if allowNeg then target - now else Z.max 0 (target - now)) /\
        forall b, computeDisplayMs (withBaseMs t b) now allowNeg
                  = computeDisplayMs t now allowNeg) /\
     (running t = false ->
        computeDisplayMs t now allowNeg
          = (if allowNeg then baseMs t else Z.max 0 (baseMs t)))) /\
  (allowNeg = false -> 0 <= computeDisplayMs t now allowNeg).
Proof.
  intros Hmode. split; [|split].
  - intros Hnone. unfold computeDisplayMs. now rewrite Hmode, Hnone.
  - intros target Htarget. split; intros Hrun.
    + split; [|intros b]; unfold computeDisplayMs, withBaseMs; simpl;
        now rewrite Hmode, Htarget, Hrun.
    + unfold computeDisplayMs. now rewrite Hmode, Htarget, Hrun.
  - intros ->. apply computeDisplayMs_clamped. congruence.
Qed.

Lemma computeDisplayMs_CountTo_witness :
  computeDisplayMs
    {| id := "T1"; label := "Timer 1"; mode := CountTo; running := true;
       startEpochMs := Some 1000; baseMs := 777; countdownInitialMs := 0;
       countToTargetEpochMs := Some 5000 |} 7000 false = 0.
Proof.
  pose proof (computeDisplayMs_CountTo
    {| id := "T1"; label := "Timer 1"; mode := CountTo; running := true;
       startEpochMs := Some 1000; baseMs := 777; countdownInitialMs := 0;
       countToTargetEpochMs := Some 5000 |} 7000 false eq_refl) as [_ [H _]].
  destruct (H 5000 eq_refl) as [Hrun _].
  destruct (Hrun eq_refl) as [Heq _].
  exact Heq.
Defined.

(** ** Auto-stop watchdog *)

Lemma watchdog_lookup (st : State) (clock : nat -> Z) (i : nat) :
  allowNegativeTime st = false ->
  timers (watchdog st clock) !! i = watchdogStep (clock i) <$> timers st !! i.
Proof.
  intros Hoff. unfold watchdog. rewrite Hoff. simpl.
  now rewrite list_lookup_imap.
Qed.

(** C3: with negative time disallowed, the display of a running [CountDown]
    timer is never below [0]; a watchdog step stops the timer, leaving
    [running = false], [startEpochMs = null] and
    [baseMs = countdownInitialMs], exactly when that display is [0], and
    leaves it as it is otherwise; it never changes a [CountUp] timer or a
    timer that is not running.  The effect applies this step to every timer
    of the store. *)
Theorem watchdog_stops_countdown_exactly_at_zero (t : Timer) (now : Z) :
  (running t = true -> mode t = CountDown ->
     0 <= computeDisplayMs t now false /\
     (computeDisplayMs t now false = 0 ->
        watchdogStep now t = countdownStopped t) /\
     (computeDisplayMs t now false <> 0 -> watchdogStep now t = t) /\
     (running (watchdogStep now t) = false <->
        computeDisplayMs t now false = 0)) /\
  (mode t = CountUp -> watchdogStep now t = t) /\
  (running t = false -> watchdogStep now t = t) /\
  (forall (st : State) (clock : nat -> Z) (i : nat),
     allowNegativeTime st = false -> timers st !! i = Some t ->
     timers (watchdog st clock) !! i = Some (watchdogStep (clock i) t)).
Proof.
  split; [|split; [|split]].
  - intros Hrun Hmode.
    assert (Hge : 0 <= computeDisplayMs t now false)
      by (apply computeDisplayMs_clamped; congruence).
    split; [exact Hge|].
    unfold watchdogStep. rewrite Hrun, Hmode. simpl.
    destruct (Z.ltb_spec 0 (computeDisplayMs t now false)) as [Hpos|Hle].
    + repeat split; intros; try lia; try congruence.
    + assert (Hz : computeDisplayMs t now false = 0) by lia.
      unfold countdownStopped. rewrite Hmode.
      repeat split; intros; try reflexivity; try congruence.
  - intros Hmode. unfold watchdogStep. rewrite Hmode.
    now destruct (negb (running t)).
  - intros Hrun. unfold watchdogStep. now rewrite Hrun.
  - intros st clock i Hoff Hi.
    rewrite watchdog_lookup by exact Hoff. now rewrite Hi.
Qed.

Lemma watchdog_stops_countdown_exactly_at_zero_witness :
  watchdogStep 7000
    {| id := "T1"; label := "Timer 1"; mode := CountDown; running := true;
       startEpochMs := Some 1000; baseMs := 0; countdownInitialMs := 6000;
       countToTargetEpochMs := None |}
  = {| id := "T1"; label := "Timer 1"; mode := CountDown; running := false;
       startEpochMs := None; baseMs := 6000; countdownInitialMs := 6000;
       countToTargetEpochMs := None |}.
Proof.
  destruct (watchdog_stops_countdown_exactly_at_zero
    {| id := "T1"; label := "Timer 1"; mode := CountDown; running := true;
       startEpochMs := Some 1000; baseMs := 0; countdownInitialMs := 6000;
       countToTargetEpochMs := None |} 7000) as [H _].
  destruct (H eq_refl eq_refl) as [_ [Hstop _]].
  exact (Hstop eq_refl).
Defined.

(** ** Store transitions on one timer *)

Lemma updateTimer_length (timerId : string) (f : Timer -> Timer)
    (l : list Timer) :
  length (updateTimer timerId f l) = length l.
Proof. unfold updateTimer. apply length_map. Qed.

Lemma updateTimer_lookup (timerId : string) (f : Timer -> Timer)
    (l : list Timer) (i : nat) (t : Timer) :
  l !! i = Some t ->
  updateTimer timerId f l !! i
    = Some (if bool_decide (id t = timerId) then f t else t).
Proof.
  intros Hi. unfold updateTimer. rewrite list_lookup_fmap.
  now rewrite Hi.
Qed.

(** C7: clearing leaves every other timer alone; on the timer cleared it
    sets [running = false], [startEpochMs = null] and [baseMs = 0] and
    keeps [mode], [label] and [id]; under [keepTarget] it also keeps
    [countdownInitialMs] and [countToTargetEpochMs], under [resetAll] it
    sets them to [0] and [null]; in both cases the keypad buffer of the
    store is emptied. *)
Theorem clearTimer_effect (st : State) (timerId : string) :
  keypadDigits (clearTimer st timerId) = [] /\
  length (timers (clearTimer st timerId)) = length (timers st) /\
  forall (i : nat) (t : Timer), timers st !! i = Some t ->
    exists t', timers (clearTimer st timerId) !! i = Some t' /\
      (id t <> timerId -> t' = t) /\
      (id t = timerId ->
         running t' = false /\ startEpochMs t' = None /\ baseMs t' = 0 /\
         mode t' = mode t /\ label t' = label t /\ id t' = id t /\
         (clearBehavior st = keepTarget ->
            countdownInitialMs t' = countdownInitialMs t /\
            countToTargetEpochMs t' = countToTargetEpochMs t) /\
         (clearBehavior st = resetAll ->
            countdownInitialMs t' = 0 /\ countToTargetEpochMs t' = None)).
Proof.
  split; [reflexivity|]. split.
  - simpl. apply updateTimer_length.
  - intros i t Hi. simpl.
    rewrite (updateTimer_lookup _ _ _ _ _ Hi).
    eexists; split; [reflexivity|]. split.
    + intros Hne. now rewrite bool_decide_eq_false_2.
    + intros Heq. rewrite bool_decide_eq_true_2 by exact Heq.
      destruct (clearBehavior st); simpl; repeat split; congruence.
Qed.

Lemma clearTimer_effect_witness :
  exists t',
    timers (clearTimer
      {| timers := [{| id := "T1"; label := "Timer 1"; mode := CountDown;
                       running := true; startEpochMs := Some 1000;
                       baseMs := 250; countdownInitialMs := 6000;
                       countToTargetEpochMs := Some 9000 |}];
         selectedTimerId := "T1"; keypadDigits := ["4"; "2"]%char;
         clearBehavior := keepTarget; allowNegativeTime := false;
         nextTimerNumber := 2 |} "T1") !! 0%nat = Some t' /\
    baseMs t' = 0 /\ countdownInitialMs t' = 6000 /\
    countToTargetEpochMs t' = Some 9000.
Proof.
  destruct (clearTimer_effect
      {| timers := [{| id := "T1"; label := "Timer 1"; mode := CountDown;
                       running := true; startEpochMs := Some 1000;
                       baseMs := 250; countdownInitialMs := 6000;
                       countToTargetEpochMs := Some 9000 |}];
         selectedTimerId := "T1"; keypadDigits := ["4"; "2"]%char;
         clearBehavior := keepTarget; allowNegativeTime := false;
         nextTimerNumber := 2 |} "T1") as [_ [_ H]].
  destruct (H 0%nat _ eq_refl) as [t' [Hlook [_ Hsel]]].
  exists t'. split; [exact Hlook|].
  destruct (Hsel eq_refl) as (_ & _ & Hb & _ & _ & _ & Hkeep & _).
  destruct (Hkeep eq_refl) as [Hc Ht].
  simpl in Hc, Ht. repeat split; assumption.
Defined.

Lemma setModeUpdater_targets (mode' : TimerMode) (now : Z) (t : Timer) :
  countdownInitialMs (setModeUpdater mode' now t) = countdownInitialMs t /\
  countToTargetEpochMs (setModeUpdater mode' now t) = countToTargetEpochMs t.
Proof. split; reflexivity. Qed.

Lemma setModes_targets (switches : list (TimerMode * Z)) (t : Timer) :
  countdownInitialMs (setModes switches t) = countdownInitialMs t /\
  countToTargetEpochMs (setModes switches t) = countToTargetEpochMs t.
Proof.
  revert t. induction switches as [|sw rest IH]; intros t; [now split|].
  unfold setModes in *. simpl.
  destruct (IH (setModeUpdater (fst sw) (snd sw) t)) as [H1 H2].
  now rewrite H1, H2.
Qed.

Lemma setModeForSelectedTimer_targets (st : State) (mode' : TimerMode)
    (now : Z) :
  countdownInitialMs <$> timers (setModeForSelectedTimer st mode' now)
    = countdownInitialMs <$> timers st /\
  countToTargetEpochMs <$> timers (setModeForSelectedTimer st mode' now)
    = countToTargetEpochMs <$> timers st.
Proof.
  simpl. unfold updateTimer.
  split; rewrite <- list_fmap_compose; apply list_fmap_ext;
    intros i t _; simpl; now destruct (bool_decide (id t = selectedTimerId st)).
Qed.

Lemma setModesForSelectedTimer_targets (switches : list (TimerMode * Z))
    (st : State) :
  countdownInitialMs <$> timers (setModesForSelectedTimer switches st)
    = countdownInitialMs <$> timers st /\
  countToTargetEpochMs <$> timers (setModesForSelectedTimer switches st)
    = countToTargetEpochMs <$> timers st.
Proof.
  revert st. induction switches as [|sw rest IH]; intros st; [now split|].
  unfold setModesForSelectedTimer in *. simpl.
  destruct (IH (setModeForSelectedTimer st (fst sw) (snd sw))) as [H1 H2].
  destruct (setModeForSelectedTimer_targets st (fst sw) (snd sw)) as [H3 H4].
  split; congruence.
Qed.

(** C5: a mode switch banks [now - startEpochMs] into [baseMs] when the
    timer is running and keeps the result only when the new mode is
    [CountUp] ([baseMs = 0] otherwise); it always leaves [running = false]
    and [startEpochMs = null]; it never changes [countdownInitialMs] or
    [countToTargetEpochMs], on one timer or in the store, over any sequence
    of mode switches.  In the store, [setModeForSelectedTimer] puts the
    timer so switched in the place of the timer that bears the selected
    id, and leaves the other timers, the selection and the rest of the
    store as they are. *)
Theorem setMode_banks_then_discards (t : Timer) (mode' : TimerMode) (now : Z) :
  mode (setModeUpdater mode' now t) = mode' /\
  running (setModeUpdater mode' now t) = false /\
  startEpochMs (setModeUpdater mode' now t) = None /\
  (mode' <> CountUp -> baseMs (setModeUpdater mode' now t) = 0) /\
  (mode' = CountUp -> running t = true ->
     forall start, startEpochMs t = Some start ->
       baseMs (setModeUpdater mode' now t) = baseMs t + (now - start)) /\
  (mode' = CountUp -> running t = false ->
     baseMs (setModeUpdater mode' now t) = baseMs t) /\
  (forall switches : list (TimerMode * Z),
     countdownInitialMs (setModes switches t) = countdownInitialMs t /\
     countToTargetEpochMs (setModes switches t) = countToTargetEpochMs t) /\
  (forall (switches : list (TimerMode * Z)) (st : State),
     countdownInitialMs <$> timers (setModesForSelectedTimer switches st)
       = countdownInitialMs <$> timers st /\
     countToTargetEpochMs <$> timers (setModesForSelectedTimer switches st)
       = countToTargetEpochMs <$> timers st) /\
  (forall (st : State) (i : nat),
     timers st !! i = Some t ->
     (id t = selectedTimerId st ->
        timers (setModeForSelectedTimer st mode' now) !! i
          = Some (setModeUpdater mode' now t)) /\
     (id t <> selectedTimerId st ->
        timers (setModeForSelectedTimer st mode' now) !! i = Some t)) /\
  (forall st : State,
     length (timers (setModeForSelectedTimer st mode' now))
       = length (timers st) /\
     selectedTimerId (setModeForSelectedTimer st mode' now)
       = selectedTimerId st /\
     keypadDigits (setModeForSelectedTimer st mode' now) = keypadDigits st /\
     clearBehavior (setModeForSelectedTimer st mode' now)
       = clearBehavior st /\
     allowNegativeTime (setModeForSelectedTimer st mode' now)
       = allowNegativeTime st /\
     nextTimerNumber (setModeForSelectedTimer st mode' now)
       = nextTimerNumber st).
Proof.
  split; [reflexivity|]. split; [reflexivity|]. split; [reflexivity|].
  split; [|split; [|split; [|split; [|split; [|split]]]]].
  - intros Hne. simpl. now destruct mode'.
  - intros -> Hrun start Hstart. simpl. now rewrite Hrun, Hstart.
  - intros -> Hrun. simpl. now rewrite Hrun.
  - intros switches. apply setModes_targets.
  - intros switches st. apply setModesForSelectedTimer_targets.
  - intros st i Hi. unfold setModeForSelectedTimer. cbn [timers setTimers].
    rewrite (updateTimer_lookup _ _ _ _ _ Hi). split; intros Hid.
    + now rewrite bool_decide_eq_true_2.
    + now rewrite bool_decide_eq_false_2.
  - intros st. unfold setModeForSelectedTimer. cbn.
    rewrite updateTimer_length. repeat split.
Qed.

Lemma setMode_banks_then_discards_witness :
  baseMs (setModeUpdater CountUp 7000
    {| id := "T1"; label := "Timer 1"; mode := CountDown; running := true;
       startEpochMs := Some 5000; baseMs := 5000; countdownInitialMs := 60000;
       countToTargetEpochMs := None |}) = 5000 + (7000 - 5000) /\
  timers (setModeForSelectedTimer
            (run utcZone initialState
               [AppendDigit "5"; StartOrPause 1000 1000])
            CountDown 3000) !! 0%nat
  = Some {| id := "T1"; label := "Timer 1"; mode := CountDown;
            running := false; startEpochMs := None; baseMs := 0;
            countdownInitialMs := 0; countToTargetEpochMs := None |} /\
  timers (setModeForSelectedTimer
            (run utcZone initialState
               [AppendDigit "5"; StartOrPause 1000 1000])
            CountUp 3000) !! 0%nat
  = Some {| id := "T1"; label := "Timer 1"; mode := CountUp;
            running := false; startEpochMs := None; baseMs := 7000;
            countdownInitialMs := 0; countToTargetEpochMs := None |}.
Proof.
  split; [|split].
  - destruct (setMode_banks_then_discards
      {| id := "T1"; label := "Timer 1"; mode := CountDown; running := true;
         startEpochMs := Some 5000; baseMs := 5000;
         countdownInitialMs := 60000; countToTargetEpochMs := None |}
      CountUp 7000) as (_ & _ & _ & _ & Hbank & _).
    exact (Hbank eq_refl eq_refl 5000 eq_refl).
  - destruct (setMode_banks_then_discards
      {| id := "T1"; label := "Timer 1"; mode := CountUp; running := true;
         startEpochMs := Some 1000; baseMs := 5000; countdownInitialMs := 0;
         countToTargetEpochMs := None |} CountDown 3000)
      as (_ & _ & _ & _ & _ & _ & _ & _ & Hstore & _).
    destruct (Hstore (run utcZone initialState
                        [AppendDigit "5"; StartOrPause 1000 1000]) 0%nat)
      as [Hsel _]; [reflexivity|].
    exact (Hsel eq_refl).
  - destruct (setMode_banks_then_discards
      {| id := "T1"; label := "Timer 1"; mode := CountUp; running := true;
         startEpochMs := Some 1000; baseMs := 5000; countdownInitialMs := 0;
         countToTargetEpochMs := None |} CountUp 3000)
      as (_ & _ & _ & _ & _ & _ & _ & _ & Hstore & _).
    destruct (Hstore (run utcZone initialState
                        [AppendDigit "5"; StartOrPause 1000 1000]) 0%nat)
      as [Hsel _]; [reflexivity|].
    exact (Hsel eq_refl).
Defined.

(** The example of the specification: [CountUp], [baseMs = 5000], running
    for 2000 ms, switched to [CountDown]. *)
Example setMode_CountUp_to_CountDown :
  setModeUpdater CountDown 3000
    {| id := "T1"; label := "Timer 1"; mode := CountUp; running := true;
       startEpochMs := Some 1000; baseMs := 5000; countdownInitialMs := 60000;
       countToTargetEpochMs := None |}
  = {| id := "T1"; label := "Timer 1"; mode := CountDown; running := false;
       startEpochMs := None; baseMs := 0; countdownInitialMs := 60000;
       countToTargetEpochMs := None |}.
Proof. reflexivity. Qed.

(** ** Pause *)

Lemma pauseUpdater_not_running (now : Z) (t : Timer) :
  running t = false -> pauseUpdater now t = t.
Proof. intros Hrun. unfold pauseUpdater. now rewrite Hrun. Qed.

Lemma pauseUpdater_running (now : Z) (t : Timer) :
  running t = true ->
  running (pauseUpdater now t) = false /\
  startEpochMs (pauseUpdater now t) = None /\
  id (pauseUpdater now t) = id t /\ label (pauseUpdater now t) = label t /\
  mode (pauseUpdater now t) = mode t /\
  countdownInitialMs (pauseUpdater now t) = countdownInitialMs t /\
  countToTargetEpochMs (pauseUpdater now t) = countToTargetEpochMs t /\
  forall start, startEpochMs t = Some start ->
    baseMs (pauseUpdater now t) = baseMs t + (now - start).
Proof.
  intros Hrun. unfold pauseUpdater. rewrite Hrun. simpl.
  repeat split. intros start ->. reflexivity.
Qed.

(** When the clock has not stepped back since the start, the increment
    banked by a pause is the clamped one. *)
Lemma pauseUpdater_clamped_if_clock_monotone (now : Z) (t : Timer) (start : Z) :
  running t = true -> startEpochMs t = Some start -> start <= now ->
  baseMs (pauseUpdater now t) = baseMs t + Z.max 0 (now - start) /\
  baseMs t <= baseMs (pauseUpdater now t).
Proof.
  intros Hrun Hstart Hle.
  destruct (pauseUpdater_running now t Hrun) as (_ & _ & _ & _ & _ & _ & _ & Hb).
  rewrite (Hb start Hstart). lia.
Qed.

(** C1 (the code departs from the claim): the first timer is started at
    clock reading 1000 and paused at clock reading 500, the wall clock
    having been set back in between.  The pause banks [500 - 1000]: [baseMs]
    goes from [0] to [-500], where the claim has it stay at
    [0 + max(0, 500 - 1000) = 0]; the projection, on the same timer and
    clock reading, clamps the elapsed time at [0]. *)
Theorem pauseTimer_banks_negative_elapsed :
  exists t t' : Timer,
    timers (run utcZone initialState [StartOrPause 1000 1000]) !! 0%nat
      = Some t /\
    timers (run utcZone initialState
              [StartOrPause 1000 1000; StartOrPause 500 500]) !! 0%nat
      = Some t' /\
    running t = true /\ startEpochMs t = Some 1000 /\ baseMs t = 0 /\
    t' = pauseUpdater 500 t /\
    baseMs t' = -500 /\
    baseMs t' <> baseMs t + Z.max 0 (500 - 1000) /\
    baseMs t' < baseMs t /\
    computeDisplayMs t 500 false = 0.
Proof.
  eexists. eexists.
  split; [vm_compute; reflexivity|].
  split; [vm_compute; reflexivity|].
  repeat split; try reflexivity. simpl. lia.
Qed.

(** ** Pause, then start again *)

(** Pausing a running timer and starting it again at the same clock
    reading, with an empty keypad buffer. *)
Lemma pause_resume_display_if_clock_monotone (tz : Z -> bool -> Z)
    (t : Timer) (now nowDate : Z) (allowNeg : bool) :
  running t = true ->
  (mode t = CountTo \/ forall start, startEpochMs t = Some start -> start <= now) ->
  computeDisplayMs
    (startUpdater tz None allowNeg now nowDate (pauseUpdater now t)) now allowNeg
  = computeDisplayMs t now allowNeg.
Proof.
  intros Hrun Hclock.
  timer_cases t; try discriminate;
    unfold computeDisplayMs, startUpdater, pauseUpdater; simpl;
    destruct tmode, allowNeg; simpl;
    try (destruct Hclock as [Hclock|Hclock];
         [try discriminate | try (specialize (Hclock _ eq_refl))]);
    try lia.
Qed.

(** C4 (the code departs from the claim): the first timer is started at
    clock reading 1000; with the wall clock set back to 500 it displays
    [0]; paused and started again at 500 it displays [-500].  The pause
    banks the unclamped [now - startEpochMs] where the projection clamps
    it. *)
Theorem pause_resume_display_jumps_after_clock_step_back :
  exists t t' : Timer,
    timers (run utcZone initialState [StartOrPause 1000 1000]) !! 0%nat
      = Some t /\
    timers (run utcZone initialState
              [StartOrPause 1000 1000; StartOrPause 500 500;
               StartOrPause 500 500]) !! 0%nat
      = Some t' /\
    running t = true /\
    t' = startUpdater utcZone None false 500 500 (pauseUpdater 500 t) /\
    computeDisplayMs t 500 false = 0 /\
    computeDisplayMs t' 500 false = -500 /\
    computeDisplayMs t 500 true = 0 /\
    computeDisplayMs
      (startUpdater utcZone None true 500 500 (pauseUpdater 500 t)) 500 true
      = -500.
Proof.
  eexists. eexists.
  split; [vm_compute; reflexivity|].
  split; [vm_compute; reflexivity|].
  repeat split; reflexivity.
Qed.

(** ** Keypad input parser *)

Lemma isDigit_range (c : ascii) :
  JS.isDigit c = true -> 48 <= JS.charCode c <= 57.
Proof. unfold JS.isDigit. intros H. apply andb_true_iff in H. lia. Qed.

Lemma stripNonDigits_digits (str : list ascii) :
  Forall (fun c => JS.isDigit c = true) (JS.stripNonDigits str).
Proof.
  unfold JS.stripNonDigits. apply Forall_forall. intros c Hc.
  apply list_elem_of_In, filter_In in Hc. tauto.
Qed.

Lemma sliceLast_length (n : nat) (str : list ascii) :
  (length (JS.sliceLast n str) <= n)%nat.
Proof. unfold JS.sliceLast. rewrite length_drop. lia. Qed.

Lemma lastSixDigits_spec (digits : list ascii) :
  let ds := JS.sliceLast 6 (JS.stripNonDigits digits) in
  (length ds <= 6)%nat /\ Forall (fun c => JS.isDigit c = true) ds.
Proof.
  split; [apply sliceLast_length|].
  unfold JS.sliceLast. apply Forall_drop, stripNonDigits_digits.
Qed.

Lemma parse_of_digits (ds : list ascii) :
  (length ds <= 6)%nat -> Forall (fun c => JS.isDigit c = true) ds ->
  let padded := JS.padStart 6 "0"%char ds in
  let n := JS.toNumber ds in
  0 <= n < 1000000 /\
  JS.toNumber (JS.slice 0 2 padded) = n / 10000 /\
  JS.toNumber (JS.slice 2 4 padded) = (n / 100) mod 100 /\
  JS.toNumber (JS.slice 4 6 padded) = n mod 100.
Proof.
  intros Hlen Hdig.
  destruct ds as [|c1 [|c2 [|c3 [|c4 [|c5 [|c6 [|c7 ds]]]]]]];
    simpl in Hlen; try lia;
    repeat match goal with
           | H : Forall _ (_ :: _) |- _ =>
               apply Forall_cons in H as [?%isDigit_range H]
           end.
  all: cbv [JS.padStart JS.slice JS.toNumber length replicate Nat.sub app take drop fold_left].
  all: try change (JS.charCode "0") with 48.
  all: repeat split; Z.div_mod_to_equations; lia.
Qed.

(** C8: let [n] be the decimal value of the last six digits of the buffer
    (what left-padding with zeros to six digits leaves unchanged).  The
    parse splits it into [HH = n / 10000], [MM = (n / 100) mod 100] and
    [SS = n mod 100] and saturates each field on its own: [h] in [0, 99]
    (two digits never exceed it), [m] and [s] at [59], with no carry into
    the next field.  ["915"] gives [0:09:15], ["999999"] gives [99:59:59]. *)
Theorem parseKeypadDigitsToHms_spec (digits : list ascii) :
  let n := JS.toNumber (JS.sliceLast 6 (JS.stripNonDigits digits)) in
  let r := parseKeypadDigitsToHms digits in
  0 <= n < 1000000 /\
  h r = clamp (n / 10000) 0 99 /\
  m r = clamp ((n / 100) mod 100) 0 59 /\
  s r = clamp (n mod 100) 0 59 /\
  h r = n / 10000 /\
  m r = Z.min 59 ((n / 100) mod 100) /\
  s r = Z.min 59 (n mod 100) /\
  0 <= h r <= 99 /\ 0 <= m r <= 59 /\ 0 <= s r <= 59 /\
  parseKeypadDigitsToHms ["9"; "1"; "5"]%char = {| h := 0; m := 9; s := 15 |} /\
  parseKeypadDigitsToHms ["9"; "9"; "9"; "9"; "9"; "9"]%char
    = {| h := 99; m := 59; s := 59 |} /\
  parseKeypadDigitsToHms ["7"; "5"; "9"; "0"]%char
    = {| h := 0; m := 59; s := 59 |}.
Proof.
  intros n r.
  destruct (lastSixDigits_spec digits) as [Hlen Hdig].
  destruct (parse_of_digits _ Hlen Hdig) as (Hn & Hh & Hm & Hs).
  fold n in Hn, Hh, Hm, Hs.
  assert (Hrh : h r = clamp (n / 10000) 0 99)
    by (unfold r, parseKeypadDigitsToHms; simpl; now rewrite Hh).
  assert (Hrm : m r = clamp ((n / 100) mod 100) 0 59)
    by (unfold r, parseKeypadDigitsToHms; simpl; now rewrite Hm).
  assert (Hrs : s r = clamp (n mod 100) 0 59)
    by (unfold r, parseKeypadDigitsToHms; simpl; now rewrite Hs).
  split; [exact Hn|]. split; [exact Hrh|]. split; [exact Hrm|].
  split; [exact Hrs|].
  rewrite Hrh, Hrm, Hrs. unfold clamp.
  repeat split; try reflexivity; Z.div_mod_to_equations; lia.
Qed.

(** ** Start *)

Lemma startSelectedTimer_lookup (tz : Z -> bool -> Z) (st : State)
    (now nowDate : Z) (i : nat) (t : Timer) (hms : option Hms)
    (allowNeg : bool) :
  timers st !! i = Some t -> id t = selectedTimerId st ->
  allowNegativeTime st = allowNeg ->
  hms = (if (0 <? length (keypadDigits st))%nat
         then Some (parseKeypadDigitsToHms (keypadDigits st)) else None) ->
  timers (startSelectedTimer tz st now nowDate) !! i
    = Some (startUpdater tz hms allowNeg now nowDate t).
Proof.
  intros Hi Hid <- ->. unfold startSelectedTimer.
  destruct (0 <? length (keypadDigits st))%nat; simpl;
    rewrite list_lookup_fmap, Hi; simpl;
    now rewrite bool_decide_eq_false_2 by (intros Hne; now apply Hne).
Qed.

Section TargetOfDay.
Variable LocalTZA : Z -> bool -> Z.
Variable tza : Z.
Hypothesis fixedOffset : forall t isUTC, LocalTZA t isUTC = tza.

Lemma getTodayTargetEpochMs_local (x : Hms) (nowDate : Z) :
  let target := getTodayTargetEpochMs LocalTZA x nowDate in
  let today := JSDate.Day (JSDate.LocalTime LocalTZA nowDate) in
  let timeOfDayNow := JSDate.TimeWithinDay (JSDate.LocalTime LocalTZA nowDate) in
  JSDate.LocalTime LocalTZA target
    = JSDate.MakeDate (if hmsToMs x <=? timeOfDayNow then today + 1 else today)
                      (hmsToMs x).
Proof.
  intros target today timeOfDayNow.
  unfold target, today, timeOfDayNow, getTodayTargetEpochMs,
    JSDate.setDateNextDay, JSDate.setHours, JSDate.LocalTime, JSDate.UTC,
    JSDate.MakeDate, JSDate.MakeTime, JSDate.Day, JSDate.TimeWithinDay,
    JSDate.msPerDay, JSDate.msPerHour, JSDate.msPerMinute,
    JSDate.msPerSecond, hmsToMs.
  rewrite !fixedOffset.
  clear target today timeOfDayNow.
  do 2 (match goal with |- context [?a <=? ?b] => destruct (Z.leb_spec a b) end);
    Z.div_mod_to_equations; lia.
Qed.

Lemma getTodayTargetEpochMs_future (x : Hms) (nowDate : Z) :
  0 <= h x -> 0 <= m x -> 0 <= s x ->
  nowDate < getTodayTargetEpochMs LocalTZA x nowDate.
Proof.
  intros Hh Hm Hs.
  pose proof (getTodayTargetEpochMs_local x nowDate) as Hlocal.
  cbv zeta in Hlocal. revert Hlocal.
  generalize (getTodayTargetEpochMs LocalTZA x nowDate). intros target.
  unfold JSDate.MakeDate, JSDate.Day, JSDate.TimeWithinDay,
    JSDate.LocalTime, JSDate.msPerDay, hmsToMs.
  rewrite !fixedOffset.
  destruct (Z.leb_spec (((h x * 60 + m x) * 60 + s x) * 1000)
                       ((nowDate + tza) mod 86400000));
    intros; Z.div_mod_to_equations; lia.
Qed.

Lemma getTodayTargetEpochMs_clock (x : Hms) (nowDate : Z) :
  0 <= h x < 24 -> 0 <= m x < 60 -> 0 <= s x < 60 ->
  let target := getTodayTargetEpochMs LocalTZA x nowDate in
  let today := JSDate.localDay LocalTZA nowDate in
  let timeOfDayNow := JSDate.TimeWithinDay (JSDate.LocalTime LocalTZA nowDate) in
  JSDate.getHours LocalTZA target = h x /\
  JSDate.getMinutes LocalTZA target = m x /\
  JSDate.getSeconds LocalTZA target = s x /\
  JSDate.getMilliseconds LocalTZA target = 0 /\
  (timeOfDayNow < hmsToMs x -> JSDate.localDay LocalTZA target = today) /\
  (hmsToMs x <= timeOfDayNow -> JSDate.localDay LocalTZA target = today + 1) /\
  nowDate < target <= nowDate + JSDate.msPerDay.
Proof.
  intros Hh Hm Hs target today timeOfDayNow.
  pose proof (getTodayTargetEpochMs_local x nowDate) as Hlocal.
  cbv zeta in Hlocal. fold target in Hlocal.
  unfold JSDate.getHours, JSDate.getMinutes, JSDate.getSeconds,
    JSDate.getMilliseconds, JSDate.localDay.
  unfold today, timeOfDayNow, JSDate.localDay.
  rewrite Hlocal.
  assert (Htarget : target = JSDate.LocalTime LocalTZA target - tza)
    by (unfold JSDate.LocalTime; rewrite fixedOffset; lia).
  rewrite Htarget, Hlocal.
  clear Hlocal Htarget target today timeOfDayNow.
  unfold JSDate.HourFromTime, JSDate.MinFromTime, JSDate.SecFromTime,
    JSDate.msFromTime, JSDate.MakeDate, JSDate.Day, JSDate.TimeWithinDay,
    JSDate.LocalTime, JSDate.msPerDay, JSDate.msPerHour, JSDate.msPerMinute,
    JSDate.msPerSecond, hmsToMs.
  rewrite !fixedOffset.
  destruct (Z.leb_spec (((h x * 60 + m x) * 60 + s x) * 1000)
                       ((nowDate + tza) mod 86400000));
    repeat split; intros; Z.div_mod_to_equations; lia.
Qed.

End TargetOfDay.

(** The zone offset of the host enters [getTodayTargetEpochMs] at instants
    around the start only: when it is [tza] from two days before the start
    to two days after it plus [h:m:s], the function computes what it
    computes on a host whose offset is [tza] throughout. *)
Lemma getTodayTargetEpochMs_window (LocalTZA : Z -> bool -> Z) (tza : Z)
    (x : Hms) (nowDate : Z) :
  0 <= h x -> 0 <= m x -> 0 <= s x ->
  - JSDate.msPerDay <= tza <= JSDate.msPerDay ->
  (forall e isUTC,
     nowDate - 2 * JSDate.msPerDay <= e
       <= nowDate + 2 * JSDate.msPerDay + hmsToMs x ->
     LocalTZA e isUTC = tza) ->
  getTodayTargetEpochMs LocalTZA x nowDate
    = getTodayTargetEpochMs (fun _ _ => tza) x nowDate /\
  LocalTZA nowDate true = tza /\
  LocalTZA (getTodayTargetEpochMs (fun _ _ => tza) x nowDate) true = tza.
Proof.
  intros Hh Hm Hs Htza Hwin.
  assert (Hms : 0 <= hmsToMs x) by (unfold hmsToMs; lia).
  assert (Hnow : LocalTZA nowDate true = tza)
    by (apply Hwin; unfold JSDate.msPerDay; lia).
  pose proof (getTodayTargetEpochMs_future (fun _ _ => tza) tza
                (fun _ _ => eq_refl) x nowDate Hh Hm Hs) as Hfuture.
  pose proof (getTodayTargetEpochMs_local (fun _ _ => tza) tza
                (fun _ _ => eq_refl) x nowDate) as Hlocal.
  cbv zeta in Hlocal.
  split; [|split; [exact Hnow|]].
  - unfold getTodayTargetEpochMs, JSDate.setHours, JSDate.setDateNextDay,
      JSDate.LocalTime, JSDate.UTC.
    rewrite Hnow.
    set (cand := JSDate.MakeDate (JSDate.Day (nowDate + tza))
                   (JSDate.MakeTime (h x) (m x) (s x) 0)).
    assert (Hcand : nowDate + tza - JSDate.msPerDay < cand
                    <= nowDate + tza + hmsToMs x).
    { unfold cand, JSDate.MakeDate, JSDate.MakeTime, JSDate.Day,
        JSDate.msPerDay, JSDate.msPerHour, JSDate.msPerMinute,
        JSDate.msPerSecond, hmsToMs.
      Z.div_mod_to_equations. lia. }
    assert (Hc : LocalTZA cand false = tza)
      by (apply Hwin; unfold JSDate.msPerDay in *; lia).
    rewrite Hc.
    destruct (Z.leb_spec (cand - tza) nowDate) as [Hroll|Hkeep];
      [|reflexivity].
    assert (Ht0 : LocalTZA (cand - tza) true = tza)
      by (apply Hwin; unfold JSDate.msPerDay in *; lia).
    rewrite Ht0.
    set (next := JSDate.MakeDate (JSDate.Day (cand - tza + tza) + 1)
                   (JSDate.TimeWithinDay (cand - tza + tza))).
    assert (Hnext : next = cand + JSDate.msPerDay).
    { unfold next, JSDate.MakeDate, JSDate.Day, JSDate.TimeWithinDay,
        JSDate.msPerDay.
      Z.div_mod_to_equations. lia. }
    assert (Hn : LocalTZA next false = tza)
      by (apply Hwin; rewrite Hnext; unfold JSDate.msPerDay in *; lia).
    now rewrite Hn.
  - apply Hwin.
    unfold JSDate.LocalTime in Hlocal.
    assert (Hupper : getTodayTargetEpochMs (fun _ _ => tza) x nowDate
                     <= nowDate + JSDate.msPerDay + hmsToMs x).
    { revert Hlocal.
      generalize (getTodayTargetEpochMs (fun _ _ => tza) x nowDate).
      intros target.
      unfold JSDate.MakeDate, JSDate.Day, JSDate.TimeWithinDay,
        JSDate.msPerDay.
      destruct (Z.leb_spec (hmsToMs x) ((nowDate + tza) mod 86400000));
        intros; Z.div_mod_to_equations; lia. }
    unfold JSDate.msPerDay in *. lia.
Qed.


Lemma berlinZone_before_change (nowDate span : Z) :
  nowDate + 3 * JSDate.msPerDay + span <= 1774746000000 -> 0 <= span ->
  forall e isUTC,
    nowDate - 2 * JSDate.msPerDay <= e <= nowDate + 2 * JSDate.msPerDay + span ->
    berlinZone e isUTC = 3600000.
Proof.
  unfold JSDate.msPerDay, berlinZone. intros Hbefore Hspan e isUTC He.
  destruct isUTC.
  - destruct (Z.ltb_spec e 1774746000000); [reflexivity | lia].
  - destruct (Z.ltb_spec e (1774746000000 + 7200000)); [reflexivity | lia].
Qed.



(** The example of the specification: at 10:00:00 local time, the digits
    [130000] give today's 13:00:00; the digits [090000] give tomorrow's
    09:00:00. *)
Example getTodayTargetEpochMs_today_and_tomorrow :
  getTodayTargetEpochMs utcZone
      (parseKeypadDigitsToHms ["1"; "3"; "0"; "0"; "0"; "0"]%char) 36000000
    = 46800000 /\
  getTodayTargetEpochMs utcZone
      (parseKeypadDigitsToHms ["0"; "9"; "0"; "0"; "0"; "0"]%char) 36000000
    = 86400000 + 32400000.
Proof. split; reflexivity. Qed.

(** ** Timer ids *)

Lemma timerIdOf_inj (a b : nat) : timerIdOf a = timerIdOf b -> a = b.
Proof.
  unfold timerIdOf. intros H. apply (inj (String.app "T")) in H. now apply (inj pretty) in H.
Qed.

Lemma filter_id_all (timerId : string) (l : list Timer) :
  (forall t, t ∈ l -> id t <> timerId) ->
  filter (fun t => id t <> timerId) l = l.
Proof.
  induction l as [|t l IH]; intros Hall; [reflexivity|].
  rewrite filter_cons_True by (apply Hall; left).
  f_equal. apply IH. intros t' Ht'. apply Hall. now right.
Qed.

Lemma filter_same_length (timerId : string) (l : list Timer) :
  length (filter (fun t => id t <> timerId) l) = length l ->
  filter (fun t => id t <> timerId) l = l.
Proof.
  intros Hlen. apply filter_id_all. intros t Ht Heq.
  pose proof (length_filter_lt (fun t => id t <> timerId) l t Ht) as Hlt.
  assert (~ id t <> timerId) by (intros Hne; now apply Hne).
  specialize (Hlt H). lia.
Qed.

Lemma filter_id_split (timerId : string) (l : list Timer) (t : Timer) :
  NoDup (id <$> l) -> t ∈ l -> id t = timerId ->
  exists l1 l2, l = l1 ++ t :: l2 /\
    filter (fun t => id t <> timerId) l = l1 ++ l2.
Proof.
  intros Hnd Hin Hid.
  apply list_elem_of_split in Hin as (l1 & l2 & ->).
  exists l1, l2. split; [reflexivity|].
  rewrite fmap_app, fmap_cons in Hnd.
  apply NoDup_app in Hnd as (_ & Hdisj & Hnd2).
  apply NoDup_cons in Hnd2 as [Hnot2 _].
  rewrite filter_app, filter_cons_False by (intros Hne; now apply Hne).
  f_equal; apply filter_id_all; intros t' Ht' Heq.
  - apply (Hdisj (id t')); [now apply list_elem_of_fmap_2|].
    rewrite Heq, <- Hid. left.
  - apply Hnot2. rewrite Hid, <- Heq. now apply list_elem_of_fmap_2.
Qed.

(** ** The store invariant *)

Lemma pauseUpdater_id (now : Z) (t : Timer) : id (pauseUpdater now t) = id t.
Proof. unfold pauseUpdater. now destruct (running t). Qed.

Lemma clearUpdater_id (b : ClearBehavior) (t : Timer) :
  id (clearUpdater b t) = id t.
Proof. now destruct b. Qed.

Lemma setModeUpdater_id (mode' : TimerMode) (now : Z) (t : Timer) :
  id (setModeUpdater mode' now t) = id t.
Proof. reflexivity. Qed.

Lemma startUpdater_id (tz : Z -> bool -> Z) (hms : option Hms)
    (allowNeg : bool) (now nowDate : Z) (t : Timer) :
  id (startUpdater tz hms allowNeg now nowDate t) = id t.
Proof.
  unfold startUpdater.
  destruct (running t), hms, (mode t), (countToTargetEpochMs t); reflexivity.
Qed.

Lemma watchdogStep_id (now : Z) (t : Timer) : id (watchdogStep now t) = id t.
Proof.
  unfold watchdogStep.
  destruct (running t), (mode t), (countToTargetEpochMs t); simpl;
    try reflexivity;
    match goal with |- context [if ?c then _ else _] => now destruct c end.
Qed.

Lemma updateTimer_ids (timerId : string) (f : Timer -> Timer)
    (l : list Timer) :
  (forall t, id (f t) = id t) -> id <$> updateTimer timerId f l = id <$> l.
Proof.
  intros Hf. unfold updateTimer. rewrite <- list_fmap_compose.
  apply list_fmap_ext. intros i t _. simpl.
  destruct (bool_decide (id t = timerId)); [apply Hf | reflexivity].
Qed.

Lemma startSelectedTimer_ids (tz : Z -> bool -> Z) (st : State)
    (now nowDate : Z) :
  timerIds (startSelectedTimer tz st now nowDate) = timerIds st /\
  nextTimerNumber (startSelectedTimer tz st now nowDate) = nextTimerNumber st.
Proof.
  unfold startSelectedTimer, timerIds.
  destruct (0 <? length (keypadDigits st))%nat; simpl; (split; [|reflexivity]);
    rewrite <- list_fmap_compose; apply list_fmap_ext; intros i t _; simpl;
    destruct (bool_decide (id t <> selectedTimerId st));
    try reflexivity; apply startUpdater_id.
Qed.

Lemma watchdog_ids (st : State) (clock : nat -> Z) :
  timerIds (watchdog st clock) = timerIds st /\
  nextTimerNumber (watchdog st clock) = nextTimerNumber st.
Proof.
  unfold watchdog, timerIds.
  destruct (allowNegativeTime st); simpl; [now split|]. split; [|reflexivity].
  rewrite fmap_imap, <- (imap_const id).
  apply imap_ext. intros i t _. simpl. apply watchdogStep_id.
Qed.

Lemma storeInvariant_same_ids (st st' : State) :
  timerIds st' = timerIds st -> nextTimerNumber st' = nextTimerNumber st ->
  storeInvariant st -> storeInvariant st'.
Proof.
  unfold storeInvariant. intros Hids Hnext (Hne & Hnd & Hissued).
  rewrite Hids, Hnext. repeat split; try assumption.
  intros Hnil. apply Hne. unfold timerIds in Hids. rewrite Hnil in Hids.
  symmetry in Hids. now apply fmap_nil_inv in Hids.
Qed.

Lemma addTimer_invariant (st : State) :
  storeInvariant st -> storeInvariant (addTimer st).
Proof.
  unfold storeInvariant, timerIds. intros (Hne & Hnd & Hissued). simpl.
  rewrite fmap_app. simpl. split; [|split].
  - intros Hnil. now apply app_nil in Hnil as [_ ?].
  - apply NoDup_app. split; [exact Hnd|]. split; [|apply NoDup_singleton].
    intros i Hi Hin. apply list_elem_of_singleton in Hin. subst i.
    rewrite Forall_forall in Hissued.
    destruct (Hissued _ Hi) as (k & Hk & Hlt).
    apply timerIdOf_inj in Hk. lia.
  - apply Forall_app. split.
    + eapply Forall_impl; [exact Hissued|].
      intros i (k & Hk & Hlt). exists k. split; [exact Hk | lia].
    + apply Forall_singleton. exists (nextTimerNumber st). split; [reflexivity|lia].
Qed.

Lemma deleteTimer_timers (st : State) (timerId : string) :
  (1 < length (timers st))%nat ->
  timers (deleteTimer st timerId)
    = filter (fun t => id t <> timerId) (timers st).
Proof.
  intros Hlen. unfold deleteTimer.
  destruct (Nat.leb_spec (length (timers st)) 1); [lia|].
  destruct (Nat.eqb_spec
              (length (filter (fun t => id t <> timerId) (timers st)))
              (length (timers st))) as [Heq|Hneq].
  - symmetry. now apply filter_same_length.
  - reflexivity.
Qed.

Lemma deleteTimer_next (st : State) (timerId : string) :
  nextTimerNumber (deleteTimer st timerId) = nextTimerNumber st.
Proof.
  unfold deleteTimer.
  destruct (length (timers st) <=? 1)%nat; [reflexivity|].
  destruct (_ =? _)%nat; [reflexivity|]. simpl.
  destruct (bool_decide _); [|reflexivity].
  destruct (filter _ _) as [|t l]; [reflexivity|].
  now destruct (JS.truthy (id t)).
Qed.

Lemma deleteTimer_single (st : State) (timerId : string) :
  (length (timers st) <= 1)%nat -> deleteTimer st timerId = st.
Proof.
  intros Hlen. unfold deleteTimer.
  destruct (Nat.leb_spec (length (timers st)) 1); [reflexivity|lia].
Qed.

Lemma deleteTimer_invariant (st : State) (timerId : string) :
  storeInvariant st -> storeInvariant (deleteTimer st timerId).
Proof.
  intros Hinv.
  destruct (Nat.leb_spec (length (timers st)) 1) as [Hle|Hgt].
  { now rewrite deleteTimer_single. }
  destruct Hinv as (Hne & Hnd & Hissued).
  unfold storeInvariant, timerIds in *.
  rewrite deleteTimer_next, deleteTimer_timers by exact Hgt.
  assert (Hsub : (id <$> filter (fun t => id t <> timerId) (timers st))
                   `sublist_of` (id <$> timers st))
    by (apply fmap_sublist, sublist_filter).
  split; [|split].
  - destruct (decide (Exists (fun t => id t = timerId) (timers st)))
      as [Hex|Hnex].
    + apply Exists_exists in Hex as (t & Hin & Hid).
      destruct (filter_id_split timerId _ t Hnd Hin Hid)
        as (l1 & l2 & Heq & ->).
      rewrite Heq, length_app in Hgt. simpl in Hgt.
      intros Hnil. apply app_nil in Hnil as [-> ->]. simpl in Hgt. lia.
    + rewrite filter_id_all; [exact Hne|].
      intros t Hin Hid. apply Hnex, Exists_exists. now exists t.
  - eapply sublist_NoDup; eassumption.
  - rewrite Forall_forall in *. intros i Hi. apply Hissued.
    eapply elem_of_sublist; eassumption.
Qed.

Lemma changeAllowNegativeTime_ids (st : State) (b : bool) (clock : nat -> Z) :
  timerIds (changeAllowNegativeTime st b clock) = timerIds st /\
  nextTimerNumber (changeAllowNegativeTime st b clock) = nextTimerNumber st.
Proof.
  unfold changeAllowNegativeTime.
  destruct (Bool.eqb b (allowNegativeTime st)); [now split|].
  apply (watchdog_ids (setAllowNegativeTime st b) clock).
Qed.

Lemma dispatch_invariant (tz : Z -> bool -> Z) (st : State) (i : Intent) :
  storeInvariant st -> storeInvariant (dispatch tz st i).
Proof.
  intros Hinv. destruct i; simpl.
  - now apply addTimer_invariant.
  - now apply deleteTimer_invariant.
  - revert Hinv. now apply storeInvariant_same_ids.
  - revert Hinv. apply storeInvariant_same_ids; [|reflexivity].
    apply updateTimer_ids. intros t. apply setModeUpdater_id.
  - destruct (selectedTimer st) as [t|]; [|exact Hinv].
    destruct (running t); revert Hinv.
    + apply storeInvariant_same_ids; [|reflexivity].
      apply updateTimer_ids. intros t'. apply pauseUpdater_id.
    + apply storeInvariant_same_ids; apply startSelectedTimer_ids.
  - revert Hinv. apply storeInvariant_same_ids; [|reflexivity].
    apply updateTimer_ids. intros t. apply clearUpdater_id.
  - revert Hinv. now apply storeInvariant_same_ids.
  - revert Hinv. now apply storeInvariant_same_ids.
  - revert Hinv. now apply storeInvariant_same_ids.
  - revert Hinv. now apply storeInvariant_same_ids.
  - revert Hinv. apply storeInvariant_same_ids;
      apply changeAllowNegativeTime_ids.
  - revert Hinv. apply storeInvariant_same_ids; apply watchdog_ids.
Qed.

Lemma initialState_invariant : storeInvariant initialState.
Proof.
  unfold storeInvariant, timerIds. split; [discriminate|]. split.
  - assert (Hids : id <$> timers initialState = ["T1"; "T2"]%string)
      by (vm_compute; reflexivity).
    rewrite Hids. apply NoDup_cons. split; [|apply NoDup_singleton].
    rewrite list_elem_of_singleton. discriminate.
  - repeat constructor; [exists 1%nat | exists 2%nat]; (split; [reflexivity|]);
      simpl; lia.
Qed.

Lemma run_invariant (tz : Z -> bool -> Z) (intents : list Intent) (st : State) :
  storeInvariant st -> storeInvariant (run tz st intents).
Proof.
  revert st. induction intents as [|i rest IH]; intros st Hinv; [exact Hinv|].
  simpl. apply IH. now apply dispatch_invariant.
Qed.

Lemma reachable_invariant (tz : Z -> bool -> Z) (st : State) :
  reachable tz st -> storeInvariant st.
Proof.
  intros [intents ->]. apply run_invariant, initialState_invariant.
Qed.

(** ** Deleting a timer *)

(** C9: when one timer remains, [deleteTimer] returns the store as it is,
    so the timer list and the selection are unchanged; every state the
    application reaches, and every state one more operation leads to, has
    at least one timer. *)
Theorem deleteTimer_last_is_noop (tz : Z -> bool -> Z) :
  (forall (st : State) (timerId : string),
     length (timers st) = 1%nat ->
     deleteTimer st timerId = st /\
     timers (deleteTimer st timerId) = timers st /\
     selectedTimerId (deleteTimer st timerId) = selectedTimerId st) /\
  (forall st : State, reachable tz st -> (1 <= length (timers st))%nat) /\
  (forall (st : State) (i : Intent),
     reachable tz st -> (1 <= length (timers (dispatch tz st i)))%nat).
Proof.
  assert (Hlen : forall st, storeInvariant st -> (1 <= length (timers st))%nat).
  { intros st (Hne & _). destruct (timers st); [congruence | simpl; lia]. }
  split; [|split].
  - intros st timerId Hone.
    assert (Hnoop : deleteTimer st timerId = st)
      by (apply deleteTimer_single; lia).
    now rewrite Hnoop.
  - intros st Hreach. eapply Hlen, reachable_invariant, Hreach.
  - intros st i Hreach.
    eapply Hlen, dispatch_invariant, reachable_invariant, Hreach.
Qed.

Lemma deleteTimer_last_is_noop_witness :
  deleteTimer (run utcZone initialState [DeleteTimer "T2"]) "T1"
    = run utcZone initialState [DeleteTimer "T2"] /\
  (1 <= length (timers (run utcZone initialState
                          [DeleteTimer "T2"; DeleteTimer "T1"])))%nat.
Proof.
  destruct (deleteTimer_last_is_noop utcZone) as (Hnoop & Hreach & _).
  split.
  - destruct (Hnoop (run utcZone initialState [DeleteTimer "T2"]) "T1"%string)
      as [H _]; [reflexivity | exact H].
  - apply Hreach. exists [DeleteTimer "T2"; DeleteTimer "T1"]. reflexivity.
Defined.

(** C10: in a store with more than one timer, deleting an id that is not
    the selected one keeps the selection and the rest of the store and
    leaves the timers whose id differs, in their order; when no timer has
    the id the store is unchanged; in a state the application reaches, the
    timer with the id is the only one removed. *)
Theorem deleteTimer_not_selected (tz : Z -> bool -> Z) (st : State)
    (timerId : string) :
  (1 < length (timers st))%nat -> timerId <> selectedTimerId st ->
  selectedTimerId (deleteTimer st timerId) = selectedTimerId st /\
  timers (deleteTimer st timerId)
    = filter (fun t => id t <> timerId) (timers st) /\
  keypadDigits (deleteTimer st timerId) = keypadDigits st /\
  nextTimerNumber (deleteTimer st timerId) = nextTimerNumber st /\
  ((forall t, t ∈ timers st -> id t <> timerId) ->
     deleteTimer st timerId = st) /\
  (reachable tz st ->
     forall t, t ∈ timers st -> id t = timerId ->
       exists l1 l2,
         timers st = l1 ++ t :: l2 /\
         timers (deleteTimer st timerId) = l1 ++ l2 /\
         forall t', t' ∈ l1 ++ l2 -> id t' <> timerId).
Proof.
  intros Hlen Hsel.
  assert (Hfields :
    selectedTimerId (deleteTimer st timerId) = selectedTimerId st /\
    keypadDigits (deleteTimer st timerId) = keypadDigits st).
  { unfold deleteTimer.
    destruct (length (timers st) <=? 1)%nat; [now split|].
    destruct (_ =? _)%nat; [now split|].
    rewrite bool_decide_eq_false_2 by congruence. now split. }
  destruct Hfields as [Hs Hk].
  pose proof (deleteTimer_timers st timerId Hlen) as Htimers.
  repeat split; try assumption.
  - apply deleteTimer_next.
  - intros Hnone. unfold deleteTimer.
    destruct (length (timers st) <=? 1)%nat; [reflexivity|].
    rewrite (filter_id_all timerId (timers st) Hnone).
    now rewrite Nat.eqb_refl.
  - intros Hreach t Hin Hid.
    destruct (reachable_invariant tz st Hreach) as (_ & Hnd & _).
    destruct (filter_id_split timerId _ t Hnd Hin Hid)
      as (l1 & l2 & Heq & Hfilter).
    exists l1, l2. split; [exact Heq|]. split; [congruence|].
    intros t' Ht'. rewrite <- Hfilter in Ht'.
    now apply list_elem_of_filter in Ht' as [? _].
Qed.

Lemma deleteTimer_not_selected_witness :
  selectedTimerId (deleteTimer initialState "T2") = "T1"%string /\
  timers (deleteTimer initialState "T2") = [makeTimer "T1" "Timer 1"] /\
  exists l1 l2,
    timers initialState = l1 ++ makeTimer "T2" "Timer 2" :: l2 /\
    timers (deleteTimer initialState "T2") = l1 ++ l2.
Proof.
  destruct (deleteTimer_not_selected utcZone initialState "T2"%string)
    as (Hs & Ht & _ & _ & _ & Hsplit); [simpl; lia | discriminate |].
  split; [exact Hs|]. split; [exact Ht|].
  destruct (Hsplit (ex_intro _ [] eq_refl) (makeTimer "T2" "Timer 2"))
    as (l1 & l2 & H1 & H2 & _).
  - apply list_elem_of_lookup. exists 1%nat. reflexivity.
  - reflexivity.
  - exists l1, l2. split; assumption.
Defined.

(** * Further properties *)

(** ** Formatting *)

Lemma digitChar_code (k : Z) :
  0 <= k <= 9 ->
  JS.charCode (digitChar k) = 48 + k /\ JS.isDigit (digitChar k) = true.
Proof.
  intros Hk.
  assert (Hcases : k = 0 \/ k = 1 \/ k = 2 \/ k = 3 \/ k = 4 \/ k = 5 \/
                   k = 6 \/ k = 7 \/ k = 8 \/ k = 9) by lia.
  repeat (destruct Hcases as [->|Hcases]; [now split|]).
  subst k. now split.
Qed.

Lemma pad2_two_digits (n : Z) :
  0 <= n < 100 ->
  pad2 n = String (digitChar (n / 10)) (String (digitChar (n mod 10)) "").
Proof.
  intros Hn.
  assert (Hall :
    forallb (fun k => String.eqb
                        (pad2 (Z.of_nat k))
                        (String (digitChar (Z.of_nat k / 10))
                           (String (digitChar (Z.of_nat k mod 10)) "")))
            (seq 0 100) = true) by (vm_compute; reflexivity).
  rewrite forallb_forall in Hall.
  specialize (Hall (Z.to_nat n)).
  rewrite Z2Nat.id in Hall by lia.
  apply String.eqb_eq, Hall, in_seq. lia.
Qed.

Lemma parse_bounds (digits : list ascii) :
  0 <= h (parseKeypadDigitsToHms digits) <= 99 /\
  0 <= m (parseKeypadDigitsToHms digits) <= 59 /\
  0 <= s (parseKeypadDigitsToHms digits) <= 59.
Proof.
  unfold parseKeypadDigitsToHms, clamp. simpl. lia.
Qed.

Lemma parse_of_clock_text (hh mm ss : Z) :
  0 <= hh <= 99 -> 0 <= mm <= 59 -> 0 <= ss <= 59 ->
  parseKeypadDigitsToHms
    (list_ascii_of_string (pad2 hh +:+ ":" +:+ pad2 mm +:+ ":" +:+ pad2 ss))
  = {| h := hh; m := mm; s := ss |}.
Proof.
  intros Hh Hm Hs.
  rewrite !pad2_two_digits by lia.
  destruct (digitChar_code (hh / 10)) as [Ch1 Dh1];
    [Z.div_mod_to_equations; lia|].
  destruct (digitChar_code (hh mod 10)) as [Ch2 Dh2];
    [Z.div_mod_to_equations; lia|].
  destruct (digitChar_code (mm / 10)) as [Cm1 Dm1];
    [Z.div_mod_to_equations; lia|].
  destruct (digitChar_code (mm mod 10)) as [Cm2 Dm2];
    [Z.div_mod_to_equations; lia|].
  destruct (digitChar_code (ss / 10)) as [Cs1 Ds1];
    [Z.div_mod_to_equations; lia|].
  destruct (digitChar_code (ss mod 10)) as [Cs2 Ds2];
    [Z.div_mod_to_equations; lia|].
  unfold parseKeypadDigitsToHms, JS.stripNonDigits. simpl.
  rewrite Dh1, Dh2, Dm1, Dm2, Ds1, Ds2.
  change (JS.isDigit ":") with false. 
  cbv [JS.sliceLast JS.padStart JS.slice JS.toNumber length replicate Nat.sub
       app take drop fold_left].
  rewrite Ch1, Ch2, Cm1, Cm2, Cs1, Cs2. unfold clamp.
  f_equal; Z.div_mod_to_equations; lia.
Qed.

(** X1: the preview shows what will be applied: reading the preview text
    back through the parser gives the same hours, minutes and seconds as
    the buffer itself. *)
Theorem keypadPreview_parse_roundtrip (st : State) :
  parseKeypadDigitsToHms (list_ascii_of_string (keypadPreview st))
  = parseKeypadDigitsToHms (keypadDigits st).
Proof.
  pose proof (parse_bounds (keypadDigits st)) as (Hh & Hm & Hs).
  unfold keypadPreview. cbv zeta.
  rewrite parse_of_clock_text by assumption.
  now destruct (parseKeypadDigitsToHms (keypadDigits st)).
Qed.

Lemma formatHmsFromMs_hmsToMs (x : Hms) :
  0 <= h x -> 0 <= m x < 60 -> 0 <= s x < 60 ->
  formatHmsFromMs (hmsToMs x)
  = pad2 (h x) +:+ ":" +:+ pad2 (m x) +:+ ":" +:+ pad2 (s x).
Proof.
  intros Hh Hm Hs. unfold formatHmsFromMs, hmsToMs. cbv zeta.
  assert (Habs : Z.abs (((h x * 60 + m x) * 60 + s x) * 1000) / 1000
                 = (h x * 60 + m x) * 60 + s x)
    by (rewrite Z.abs_eq by lia; Z.div_mod_to_equations; lia).
  rewrite Habs.
  replace (((h x * 60 + m x) * 60 + s x) / 3600) with (h x)
    by (Z.div_mod_to_equations; lia).
  replace ((((h x * 60 + m x) * 60 + s x) mod 3600) / 60) with (m x)
    by (Z.div_mod_to_equations; lia).
  replace (((h x * 60 + m x) * 60 + s x) mod 60) with (s x)
    by (Z.div_mod_to_equations; lia).
  reflexivity.
Qed.

(** X2: [formatHmsFromMs] drops the sign and the milliseconds.  Below a
    hundred hours its text has the eight characters of [HH:MM:SS], and
    reading it back through the keypad parser gives the magnitude rounded
    down to whole seconds. *)
Theorem formatHmsFromMs_roundtrip (ms : Z) :
  Z.abs ms < 360000000 ->
  hmsToMs (parseKeypadDigitsToHms (list_ascii_of_string (formatHmsFromMs ms)))
    = Z.abs ms - Z.abs ms mod 1000 /\
  String.length (formatHmsFromMs ms) = 8%nat /\
  formatHmsFromMs (- ms) = formatHmsFromMs ms.
Proof.
  intros Hlt. pose proof (Z.abs_nonneg ms) as Hge.
  split; [|split].
  - unfold formatHmsFromMs. cbv zeta.
    rewrite parse_of_clock_text by (Z.div_mod_to_equations; lia).
    unfold hmsToMs. simpl. Z.div_mod_to_equations. lia.
  - unfold formatHmsFromMs. cbv zeta.
    rewrite !pad2_two_digits by (Z.div_mod_to_equations; lia).
    reflexivity.
  - unfold formatHmsFromMs. now rewrite Z.abs_opp.
Qed.

Lemma formatHmsFromMs_roundtrip_witness :
  hmsToMs (parseKeypadDigitsToHms
             (list_ascii_of_string (formatHmsFromMs (-3723999))))
  = 3723000.
Proof.
  destruct (formatHmsFromMs_roundtrip (-3723999)) as [H _];
    [simpl; lia | exact H].
Defined.

(** ** The target text of a timer *)

Lemma startSelectedTimer_keypad_consumed (tz : Z -> bool -> Z) (st : State)
    (now nowDate : Z) :
  keypadDigits (startSelectedTimer tz st now nowDate) = [].
Proof.
  unfold startSelectedTimer.
  destruct (keypadDigits st) as [|c rest] eqn:Hk; simpl; [exact Hk | reflexivity].
Qed.

Lemma targetTextOf_empty_buffer (tz : Z -> bool -> Z) (st : State) (t : Timer) :
  keypadDigits st = [] ->
  targetTextOf tz st t
  = match mode t with
    | CountDown => formatHmsFromMs (countdownInitialMs t)
    | CountTo =>
        match countToTargetEpochMs t with
        | Some target => formatClockFromEpochMs tz target
        | None => "00:00:00"%string
        end
    | CountUp => "00:00:00"%string
    end.
Proof.
  intros Hk. unfold targetTextOf. rewrite Hk. simpl.
  now rewrite andb_false_r.
Qed.

(** X3: starting the selected [CountDown] timer with digits typed stores
    the typed duration, empties the buffer, and the target text of the
    timer afterwards is the preview that was shown while typing. *)
Theorem start_CountDown_target_text (tz : Z -> bool -> Z) (st : State)
    (now nowDate : Z) (i : nat) (t : Timer) :
  timers st !! i = Some t -> id t = selectedTimerId st ->
  running t = false -> mode t = CountDown -> keypadDigits st <> [] ->
  exists t',
    timers (startSelectedTimer tz st now nowDate) !! i = Some t' /\
    countdownInitialMs t' = hmsToMs (parseKeypadDigitsToHms (keypadDigits st)) /\
    baseMs t' = 0 /\ running t' = true /\ startEpochMs t' = Some now /\
    keypadDigits (startSelectedTimer tz st now nowDate) = [] /\
    targetTextOf tz (startSelectedTimer tz st now nowDate) t'
      = keypadPreview st.
Proof.
  intros Hi Hid Hrun Hmode Hk.
  eexists. split.
  { eapply startSelectedTimer_lookup; [exact Hi | exact Hid | reflexivity..]. }
  assert (Hlen : (0 <? length (keypadDigits st))%nat = true)
    by (destruct (keypadDigits st); [congruence | reflexivity]).
  rewrite Hlen.
  pose proof (parse_bounds (keypadDigits st)) as (Hh & Hm & Hs).
  rewrite targetTextOf_empty_buffer by apply startSelectedTimer_keypad_consumed.
  unfold startUpdater. rewrite Hrun, Hmode. simpl.
  repeat split; try reflexivity.
  - apply startSelectedTimer_keypad_consumed.
  - unfold keypadPreview. cbv zeta. apply formatHmsFromMs_hmsToMs; lia.
Qed.

Lemma start_CountDown_target_text_witness :
  exists t',
    timers (startSelectedTimer utcZone
              (run utcZone initialState
                 [SetMode CountDown 0; AppendDigit "1"; AppendDigit "3";
                  AppendDigit "0"])
              5000 5000) !! 0%nat = Some t' /\
    countdownInitialMs t' = 90000 /\
    targetTextOf utcZone
      (startSelectedTimer utcZone
         (run utcZone initialState
            [SetMode CountDown 0; AppendDigit "1"; AppendDigit "3";
                  AppendDigit "0"])
         5000 5000) t'
    = "00:01:30"%string.
Proof.
  destruct (start_CountDown_target_text utcZone
              (run utcZone initialState
                 [SetMode CountDown 0; AppendDigit "1"; AppendDigit "3";
                  AppendDigit "0"])
              5000 5000 0%nat
              {| id := "T1"; label := "Timer 1"; mode := CountDown;
                 running := false; startEpochMs := None; baseMs := 0;
                 countdownInitialMs := 0; countToTargetEpochMs := None |})
    as (t' & Hl & Hc & _ & _ & _ & _ & Ht);
    [reflexivity | reflexivity | reflexivity | reflexivity | discriminate |].
  exists t'. split; [exact Hl|]. split; [exact Hc | exact Ht].
Defined.

(** X4: starting the selected [CountTo] timer with a time of day typed
    stores its next occurrence, and the target text of the timer
    afterwards is the preview that was shown while typing, on a host whose
    zone offset is fixed. *)
Theorem start_CountTo_target_text (tz : Z -> bool -> Z) (tza : Z) (st : State)
    (now nowDate : Z) (i : nat) (t : Timer) :
  (forall e isUTC, tz e isUTC = tza) ->
  timers st !! i = Some t -> id t = selectedTimerId st ->
  running t = false -> mode t = CountTo -> keypadDigits st <> [] ->
  h (parseKeypadDigitsToHms (keypadDigits st)) < 24 ->
  exists t',
    timers (startSelectedTimer tz st now nowDate) !! i = Some t' /\
    countToTargetEpochMs t'
      = Some (getTodayTargetEpochMs tz
                (parseKeypadDigitsToHms (keypadDigits st)) nowDate) /\
    targetTextOf tz (startSelectedTimer tz st now nowDate) t'
      = keypadPreview st.
Proof.
  intros Hfixed Hi Hid Hrun Hmode Hk Hday.
  eexists. split.
  { eapply startSelectedTimer_lookup; [exact Hi | exact Hid | reflexivity..]. }
  assert (Hlen : (0 <? length (keypadDigits st))%nat = true)
    by (destruct (keypadDigits st); [congruence | reflexivity]).
  rewrite Hlen.
  pose proof (parse_bounds (keypadDigits st)) as (Hh & Hm & Hs).
  rewrite targetTextOf_empty_buffer by apply startSelectedTimer_keypad_consumed.
  unfold startUpdater. rewrite Hrun, Hmode. simpl.
  split; [reflexivity|].
  destruct (getTodayTargetEpochMs_clock tz tza Hfixed
              (parseKeypadDigitsToHms (keypadDigits st)) nowDate)
    as (Hgh & Hgm & Hgs & _); try lia.
  unfold formatClockFromEpochMs, keypadPreview. cbv zeta.
  now rewrite Hgh, Hgm, Hgs.
Qed.

Lemma start_CountTo_target_text_witness :
  exists t',
    timers (startSelectedTimer cetZone
              (run cetZone initialState
                 [SetMode CountTo 0; AppendDigit "1"; AppendDigit "3";
                  AppendDigit "0"; AppendDigit "0"; AppendDigit "0";
                  AppendDigit "0"])
              36000000 36000000) !! 0%nat = Some t' /\
    countToTargetEpochMs t' = Some 43200000 /\
    targetTextOf cetZone
      (startSelectedTimer cetZone
         (run cetZone initialState
            [SetMode CountTo 0; AppendDigit "1"; AppendDigit "3";
             AppendDigit "0"; AppendDigit "0"; AppendDigit "0";
             AppendDigit "0"])
         36000000 36000000) t'
    = "13:00:00"%string.
Proof.
  destruct (start_CountTo_target_text cetZone 3600000
              (run cetZone initialState
                 [SetMode CountTo 0; AppendDigit "1"; AppendDigit "3";
                  AppendDigit "0"; AppendDigit "0"; AppendDigit "0";
                  AppendDigit "0"])
              36000000 36000000 0%nat
              {| id := "T1"; label := "Timer 1"; mode := CountTo;
                 running := false; startEpochMs := None; baseMs := 0;
                 countdownInitialMs := 0; countToTargetEpochMs := None |}
              (fun _ _ => eq_refl))
    as (t' & Hl & Hc & Ht);
    [reflexivity | reflexivity | reflexivity | reflexivity | discriminate
    | vm_compute; reflexivity |].
  exists t'. split; [exact Hl|]. split; [exact Hc | exact Ht].
Defined.

Lemma targetTexts_lookup_other (g : Timer -> string) (l : list Timer)
    (acc : gmap string string) (k : string) :
  k ∉ id <$> l ->
  foldl (fun map t => <[id t := g t]> map) acc l !! k = acc !! k.
Proof.
  revert acc. induction l as [|a l IH]; intros acc Hk; [reflexivity|].
  simpl. rewrite fmap_cons, not_elem_of_cons in Hk. destruct Hk as [Hne Hk].
  rewrite IH by exact Hk. now apply lookup_insert_ne.
Qed.

Lemma targetTexts_lookup (g : Timer -> string) (l : list Timer)
    (acc : gmap string string) (t : Timer) :
  NoDup (id <$> l) -> t ∈ l ->
  foldl (fun map t => <[id t := g t]> map) acc l !! id t = Some (g t).
Proof.
  revert acc. induction l as [|a l IH]; intros acc Hnd Hin.
  - now apply elem_of_nil in Hin.
  - simpl. rewrite fmap_cons in Hnd. apply NoDup_cons in Hnd as [Hfresh Hnd].
    apply elem_of_cons in Hin as [->|Hin].
    + rewrite targetTexts_lookup_other by exact Hfresh.
      apply lookup_insert_eq.
    + now apply IH.
Qed.

(** X5: in every state the application reaches, the object
    [timerTargetTextById] holds, under the id of each timer, the text
    computed for that timer, and nothing under any other key. *)
Theorem timerTargetTextById_lookup (tz : Z -> bool -> Z) (st : State) :
  reachable tz st ->
  (forall t, t ∈ timers st ->
     timerTargetTextById tz st !! id t = Some (targetTextOf tz st t)) /\
  (forall k, k ∉ timerIds st -> timerTargetTextById tz st !! k = None).
Proof.
  intros Hreach.
  destruct (reachable_invariant tz st Hreach) as (_ & Hnd & _).
  split.
  - intros t Hin. unfold timerTargetTextById.
    now apply targetTexts_lookup.
  - intros k Hk. unfold timerTargetTextById.
    rewrite targetTexts_lookup_other by exact Hk. apply lookup_empty.
Qed.

Lemma timerTargetTextById_lookup_witness :
  timerTargetTextById utcZone (run utcZone initialState [AddTimer])
    !! ("T3"%string) = Some "00:00:00"%string.
Proof.
  destruct (timerTargetTextById_lookup utcZone
              (run utcZone initialState [AddTimer])
              (ex_intro _ [AddTimer] eq_refl)) as [H _].
  apply (H (makeTimer "T3" "Timer 3")).
  apply list_elem_of_lookup. exists 2%nat. reflexivity.
Defined.

(** ** Invariants of the timers *)

Lemma hmsToMs_parse_range (digits : list ascii) :
  0 <= hmsToMs (parseKeypadDigitsToHms digits) <= maxKeypadMs.
Proof.
  pose proof (parse_bounds digits) as (Hh & Hm & Hs).
  unfold hmsToMs, maxKeypadMs. lia.
Qed.

Lemma makeTimer_consistent (i l : string) : timerConsistent (makeTimer i l).
Proof. unfold timerConsistent, maxKeypadMs. simpl. intuition congruence || lia. Qed.

Lemma pauseUpdater_consistent (now : Z) (t : Timer) :
  timerConsistent t -> timerConsistent (pauseUpdater now t).
Proof.
  unfold timerConsistent, pauseUpdater. intros [Hrun Hcd].
  destruct (running t) eqn:Erun; simpl; [|rewrite Erun; now split].
  split; [|exact Hcd]. split; congruence.
Qed.

Lemma clearUpdater_consistent (b : ClearBehavior) (t : Timer) :
  timerConsistent t -> timerConsistent (clearUpdater b t).
Proof.
  unfold timerConsistent, maxKeypadMs. intros [Hrun Hcd].
  destruct b; simpl; (split; [split; congruence | lia]).
Qed.

Lemma setModeUpdater_consistent (mode' : TimerMode) (now : Z) (t : Timer) :
  timerConsistent t -> timerConsistent (setModeUpdater mode' now t).
Proof.
  unfold timerConsistent. intros [Hrun Hcd]. simpl.
  split; [split; congruence | exact Hcd].
Qed.

Lemma watchdogStep_consistent (now : Z) (t : Timer) :
  timerConsistent t -> timerConsistent (watchdogStep now t).
Proof.
  intros Hcons. pose proof Hcons as [Hrun Hcd].
  unfold watchdogStep.
  destruct (running t); simpl; [|exact Hcons].
  destruct (mode t); [exact Hcons | |].
  - destruct (0 <? _); [exact Hcons|].
    split; simpl; [split; congruence | exact Hcd].
  - destruct (countToTargetEpochMs t); [|exact Hcons].
    destruct (0 <? _); [exact Hcons|].
    split; simpl; [split; congruence | exact Hcd].
Qed.

Lemma startUpdater_consistent (tz : Z -> bool -> Z) (hms : option Hms)
    (allowNeg : bool) (now nowDate : Z) (t : Timer) :
  (forall x, hms = Some x -> 0 <= hmsToMs x <= maxKeypadMs) ->
  timerConsistent t ->
  timerConsistent (startUpdater tz hms allowNeg now nowDate t).
Proof.
  intros Hhms Hcons. pose proof Hcons as [Hrun Hcd].
  unfold startUpdater.
  destruct (running t); [exact Hcons|].
  destruct hms as [x|]; [specialize (Hhms x eq_refl)|];
    destruct (mode t); simpl; try destruct (countToTargetEpochMs t); simpl;
    (split; simpl; [split; congruence | assumption]).
Qed.

Lemma updateTimer_Forall (P : Timer -> Prop) (timerId : string)
    (f : Timer -> Timer) (l : list Timer) :
  (forall t, P t -> P (f t)) -> Forall P l -> Forall P (updateTimer timerId f l).
Proof.
  intros Hf Hall. unfold updateTimer. apply Forall_fmap.
  eapply Forall_impl; [exact Hall|]. intros t Ht. simpl.
  destruct (bool_decide (id t = timerId)); auto.
Qed.

Lemma deleteTimer_Forall (P : Timer -> Prop) (st : State) (timerId : string) :
  Forall P (timers st) -> Forall P (timers (deleteTimer st timerId)).
Proof.
  intros Hall.
  destruct (Nat.leb_spec (length (timers st)) 1) as [Hle|Hgt].
  - now rewrite deleteTimer_single.
  - rewrite deleteTimer_timers by exact Hgt.
    rewrite Forall_forall in *. intros t Ht.
    apply list_elem_of_filter in Ht as [_ Ht]. now apply Hall.
Qed.

Lemma watchdog_consistent (st : State) (clock : nat -> Z) :
  Forall timerConsistent (timers st) ->
  Forall timerConsistent (timers (watchdog st clock)).
Proof.
  intros Hall.
  unfold watchdog. destruct (allowNegativeTime st); [exact Hall|]. simpl.
  apply Forall_forall. intros t' Hin.
  apply list_elem_of_lookup in Hin as [k Hk].
  rewrite list_lookup_imap in Hk.
  destruct (timers st !! k) as [t|] eqn:Ht; [|discriminate].
  injection Hk as <-. apply watchdogStep_consistent.
  rewrite Forall_forall in Hall. apply Hall.
  apply list_elem_of_lookup. now exists k.
Qed.

Lemma dispatch_consistent (tz : Z -> bool -> Z) (st : State) (i : Intent) :
  Forall timerConsistent (timers st) ->
  Forall timerConsistent (timers (dispatch tz st i)).
Proof.
  intros Hall. destruct i; simpl; try exact Hall.
  - apply Forall_app. split; [exact Hall|].
    apply Forall_singleton, makeTimer_consistent.
  - now apply deleteTimer_Forall.
  - apply updateTimer_Forall; [|exact Hall].
    intros t. apply setModeUpdater_consistent.
  - destruct (selectedTimer st) as [t|]; [|exact Hall].
    destruct (running t).
    + apply updateTimer_Forall; [|exact Hall].
      intros t'. apply pauseUpdater_consistent.
    + unfold startSelectedTimer.
      assert (Hmap : Forall timerConsistent
        (map (fun t0 =>
                if bool_decide (id t0 <> selectedTimerId st) then t0
                else startUpdater tz
                       (if (0 <? length (keypadDigits st))%nat
                        then Some (parseKeypadDigitsToHms (keypadDigits st))
                        else None)
                       (allowNegativeTime st) now nowDate t0) (timers st))).
      { apply Forall_fmap. eapply Forall_impl; [exact Hall|].
        intros t0 Ht0. simpl.
        destruct (bool_decide (id t0 <> selectedTimerId st)); [exact Ht0|].
        apply startUpdater_consistent; [|exact Ht0].
        intros x Hx. destruct (0 <? length (keypadDigits st))%nat;
          [|discriminate].
        injection Hx as <-. apply hmsToMs_parse_range. }
      now destruct (0 <? length (keypadDigits st))%nat.
  - apply updateTimer_Forall; [|exact Hall].
    intros t. apply clearUpdater_consistent.
  - unfold changeAllowNegativeTime.
    destruct (Bool.eqb b (allowNegativeTime st)); [exact Hall|].
    now apply watchdog_consistent.
  - now apply watchdog_consistent.
Qed.

Lemma reachable_consistent (tz : Z -> bool -> Z) (st : State) :
  reachable tz st -> Forall timerConsistent (timers st).
Proof.
  intros [intents ->].
  assert (Hgen : forall st0, Forall timerConsistent (timers st0) ->
            Forall timerConsistent (timers (run tz st0 intents))).
  { induction intents as [|i rest IH]; intros st0 H0; [exact H0|].
    simpl. apply IH. now apply dispatch_consistent. }
  apply Hgen. repeat constructor; apply makeTimer_consistent.
Qed.

(** X6: in every state the application reaches, a timer is running exactly
    when it holds a start instant. *)
Theorem reachable_running_iff_started (tz : Z -> bool -> Z) (st : State)
    (t : Timer) :
  reachable tz st -> t ∈ timers st ->
  (running t = true -> exists start, startEpochMs t = Some start) /\
  (running t = false -> startEpochMs t = None).
Proof.
  intros Hreach Hin.
  pose proof (reachable_consistent tz st Hreach) as Hall.
  rewrite Forall_forall in Hall. destruct (Hall t Hin) as [[H1 H2] _].
  split.
  - intros Hrun. destruct (startEpochMs t) as [start|]; [now exists start|].
    now specialize (H1 Hrun).
  - intros Hrun. destruct (startEpochMs t) as [start|]; [|reflexivity].
    rewrite H2 in Hrun; [discriminate | discriminate].
Qed.

Lemma reachable_running_iff_started_witness :
  exists start,
    startEpochMs
      {| id := "T1"; label := "Timer 1"; mode := CountUp; running := true;
         startEpochMs := Some 1000; baseMs := 0; countdownInitialMs := 0;
         countToTargetEpochMs := None |} = Some start.
Proof.
  destruct (reachable_running_iff_started utcZone
              (run utcZone initialState [StartOrPause 1000 1000])
              {| id := "T1"; label := "Timer 1"; mode := CountUp;
                 running := true; startEpochMs := Some 1000; baseMs := 0;
                 countdownInitialMs := 0; countToTargetEpochMs := None |})
    as [H _].
  - exists [StartOrPause 1000 1000]. reflexivity.
  - apply list_elem_of_lookup. exists 0%nat. reflexivity.
  - exact (H eq_refl).
Defined.

(** X7: in every state the application reaches, the countdown duration of
    every timer lies between [0] and 99:59:59, the longest the keypad can
    express. *)
Theorem reachable_countdownInitialMs_range (tz : Z -> bool -> Z) (st : State)
    (t : Timer) :
  reachable tz st -> t ∈ timers st ->
  0 <= countdownInitialMs t <= 359999000.
Proof.
  intros Hreach Hin.
  pose proof (reachable_consistent tz st Hreach) as Hall.
  rewrite Forall_forall in Hall. now destruct (Hall t Hin) as [_ H].
Qed.

Lemma reachable_countdownInitialMs_range_witness :
  timers (run utcZone initialState
            [SetMode CountDown 0; AppendDigit "9"; AppendDigit "9";
             AppendDigit "9"; AppendDigit "9"; AppendDigit "9";
             AppendDigit "9"; StartOrPause 1000 1000]) !! 0%nat
  = Some {| id := "T1"; label := "Timer 1"; mode := CountDown;
            running := true; startEpochMs := Some 1000; baseMs := 0;
            countdownInitialMs := 359999000;
            countToTargetEpochMs := None |} /\
  0 <= countdownInitialMs
         {| id := "T1"; label := "Timer 1"; mode := CountDown;
            running := true; startEpochMs := Some 1000; baseMs := 0;
            countdownInitialMs := 359999000;
            countToTargetEpochMs := None |} <= 359999000.
Proof.
  split; [vm_compute; reflexivity|].
  apply (reachable_countdownInitialMs_range utcZone
           (run utcZone initialState
              [SetMode CountDown 0; AppendDigit "9"; AppendDigit "9";
               AppendDigit "9"; AppendDigit "9"; AppendDigit "9";
               AppendDigit "9"; StartOrPause 1000 1000])).
  - eexists. reflexivity.
  - apply list_elem_of_lookup. exists 0%nat. vm_compute. reflexivity.
Defined.

(** ** The keypad buffer *)

Lemma deleteTimer_keypad (st : State) (timerId : string) :
  keypadDigits (deleteTimer st timerId) = keypadDigits st.
Proof.
  unfold deleteTimer.
  destruct (length (timers st) <=? 1)%nat; [reflexivity|].
  destruct (_ =? _)%nat; [reflexivity|]. simpl.
  destruct (bool_decide _); [|reflexivity].
  destruct (filter _ _) as [|t l]; [reflexivity|].
  now destruct (JS.truthy (id t)).
Qed.

Lemma dispatch_keypad (tz : Z -> bool -> Z) (st : State) (i : Intent) :
  keypadDigits (dispatch tz st i) = keypadDigits st \/
  keypadDigits (dispatch tz st i) = [] \/
  (exists d, i = AppendDigit d /\
     keypadDigits (dispatch tz st i) = JS.sliceLast 6 (keypadDigits st ++ [d])) \/
  (i = DeleteDigit /\
     keypadDigits (dispatch tz st i) = JS.sliceDropLast (keypadDigits st)).
Proof.
  destruct i; simpl; try (left; reflexivity); try (right; left; reflexivity).
  - left. apply deleteTimer_keypad.
  - destruct (selectedTimer st) as [t|]; [|now left].
    destruct (running t); [now left|].
    right. left. apply startSelectedTimer_keypad_consumed.
  - right. right. left. now exists d.
  - right. right. right. now split.
  - left. unfold changeAllowNegativeTime, watchdog.
    destruct (Bool.eqb b (allowNegativeTime st)); [reflexivity|].
    simpl. now destruct b.
  - left. unfold watchdog. now destruct (allowNegativeTime st).
Qed.

Lemma uiReachable_reachable (tz : Z -> bool -> Z) (st : State) :
  uiReachable tz st -> reachable tz st.
Proof.
  induction 1 as [|st i _ [intents ->] _].
  - now exists [].
  - exists (intents ++ [i]). unfold run. now rewrite fold_left_app.
Qed.

Lemma reachable_keypad_length (tz : Z -> bool -> Z) (st : State) :
  reachable tz st -> (length (keypadDigits st) <= 6)%nat.
Proof.
  intros [intents ->].
  assert (Hgen : forall st0, (length (keypadDigits st0) <= 6)%nat ->
            (length (keypadDigits (run tz st0 intents)) <= 6)%nat).
  { induction intents as [|i rest IH]; intros st0 H0; [exact H0|].
    simpl. apply IH.
    destruct (dispatch_keypad tz st0 i)
      as [-> | [-> | [(d & _ & ->) | (_ & ->)]]].
    - exact H0.
    - simpl. lia.
    - apply sliceLast_length.
    - unfold JS.sliceDropLast. rewrite length_take. lia. }
  apply Hgen. simpl. lia.
Qed.

Lemma uiReachable_keypad_digits (tz : Z -> bool -> Z) (st : State) :
  uiReachable tz st -> Forall (fun c => JS.isDigit c = true) (keypadDigits st).
Proof.
  induction 1 as [|st i _ IH Hui]; [constructor|].
  destruct (dispatch_keypad tz st i)
    as [-> | [-> | [(d & -> & ->) | (_ & ->)]]].
  - exact IH.
  - constructor.
  - unfold JS.sliceLast. apply Forall_drop, Forall_app. split; [exact IH|].
    now apply Forall_singleton.
  - unfold JS.sliceDropLast. now apply Forall_take.
Qed.

Lemma stripNonDigits_id (l : list ascii) :
  Forall (fun c => JS.isDigit c = true) l -> JS.stripNonDigits l = l.
Proof.
  unfold JS.stripNonDigits.
  induction 1 as [|c l Hc _ IH]; [reflexivity|]. simpl.
  now rewrite Hc, IH.
Qed.

Lemma sliceLast_id (n : nat) (l : list ascii) :
  (length l <= n)%nat -> JS.sliceLast n l = l.
Proof.
  intros Hlen. unfold JS.sliceLast.
  now replace (length l - n)%nat with 0%nat by lia.
Qed.

(** X8: the keypad buffer never holds more than six characters; when its
    characters come from the ten digit keys it holds digits only, and the
    parser then reads the buffer as it is, with nothing stripped or cut. *)
Theorem keypad_buffer_invariant (tz : Z -> bool -> Z) (st : State) :
  (reachable tz st -> (length (keypadDigits st) <= 6)%nat) /\
  (uiReachable tz st ->
     Forall (fun c => JS.isDigit c = true) (keypadDigits st) /\
     JS.sliceLast 6 (JS.stripNonDigits (keypadDigits st)) = keypadDigits st).
Proof.
  split; [apply reachable_keypad_length|].
  intros Hui.
  pose proof (uiReachable_keypad_digits tz st Hui) as Hdig.
  split; [exact Hdig|].
  rewrite stripNonDigits_id by exact Hdig.
  apply sliceLast_id, (reachable_keypad_length tz), uiReachable_reachable, Hui.
Qed.

Lemma keypad_buffer_invariant_witness :
  (length (keypadDigits
             (run utcZone initialState
                [AppendDigit "1"; AppendDigit "2"; AppendDigit "3";
                 AppendDigit "4"; AppendDigit "5"; AppendDigit "6";
                 AppendDigit "7"])) <= 6)%nat /\
  JS.sliceLast 6
    (JS.stripNonDigits
       (keypadDigits (dispatch utcZone initialState (AppendDigit "1"))))
  = keypadDigits (dispatch utcZone initialState (AppendDigit "1")).
Proof.
  split.
  - destruct (keypad_buffer_invariant utcZone
                (run utcZone initialState
                   [AppendDigit "1"; AppendDigit "2"; AppendDigit "3";
                    AppendDigit "4"; AppendDigit "5"; AppendDigit "6";
                    AppendDigit "7"])) as [H _].
    apply H. eexists. reflexivity.
  - destruct (keypad_buffer_invariant utcZone
                (dispatch utcZone initialState (AppendDigit "1")))
      as [_ H].
    destruct H as [_ H]; [|exact H].
    apply uiReachable_step; [apply uiReachable_initial | reflexivity].
Defined.

Lemma keypad_shift_digits (b : list ascii) (d : ascii) :
  (length b <= 6)%nat -> Forall (fun c => JS.isDigit c = true) b ->
  JS.isDigit d = true ->
  JS.toNumber (JS.sliceLast 6 (b ++ [d]))
    = (10 * JS.toNumber b + (JS.charCode d - 48)) mod 1000000 /\
  JS.toNumber (JS.sliceDropLast b) = JS.toNumber b / 10.
Proof.
  intros Hlen Hdig Hd. apply isDigit_range in Hd.
  destruct b as [|c1 [|c2 [|c3 [|c4 [|c5 [|c6 [|c7 b]]]]]]];
    simpl in Hlen; try lia;
    repeat match goal with
           | H : Forall _ (_ :: _) |- _ =>
               apply Forall_cons in H as [?%isDigit_range H]
           end;
    cbv [JS.sliceLast JS.sliceDropLast JS.toNumber length Nat.sub app take
         drop fold_left];
    split; Z.div_mod_to_equations; lia.
Qed.

(** X9: with digits typed from the digit keys the buffer works as a
    six-digit shift register: a digit key turns the value [n] of the buffer
    into [(10 n + d) mod 1000000], the DEL key into [n / 10]. *)
Theorem keypad_shift_register (tz : Z -> bool -> Z) (st : State) (d : ascii) :
  uiReachable tz st -> JS.isDigit d = true ->
  JS.toNumber (keypadDigits (dispatch tz st (AppendDigit d)))
    = (10 * JS.toNumber (keypadDigits st) + (JS.charCode d - 48))
      mod 1000000 /\
  JS.toNumber (keypadDigits (dispatch tz st DeleteDigit))
    = JS.toNumber (keypadDigits st) / 10.
Proof.
  intros Hui Hd. simpl. apply keypad_shift_digits.
  - apply (reachable_keypad_length tz), uiReachable_reachable, Hui.
  - apply (uiReachable_keypad_digits tz), Hui.
  - exact Hd.
Qed.

Lemma keypad_shift_register_witness :
  JS.toNumber (keypadDigits (dispatch utcZone initialState (AppendDigit "7")))
  = (10 * 0 + 7) mod 1000000.
Proof.
  destruct (keypad_shift_register utcZone initialState "7"%char) as [H _].
  - constructor.
  - reflexivity.
  - exact H.
Defined.

(** ** The selection *)

Lemma timerIdOf_truthy (k : nat) : JS.truthy (timerIdOf k) = true.
Proof. reflexivity. Qed.

Lemma find_by_id (sel : string) (l : list Timer) :
  sel ∈ id <$> l ->
  exists t, List.find (fun t => bool_decide (id t = sel)) l = Some t /\
            id t = sel /\ t ∈ l.
Proof.
  induction l as [|a l IH]; intros Hin.
  - now apply elem_of_nil in Hin.
  - simpl. destruct (bool_decide (id a = sel)) eqn:Ha.
    + apply bool_decide_eq_true in Ha. exists a.
      repeat split; [exact Ha | left].
    + apply bool_decide_eq_false in Ha.
      rewrite fmap_cons in Hin. apply elem_of_cons in Hin as [Heq|Hin];
        [congruence|].
      destruct (IH Hin) as (t & Hf & Hid & Ht). exists t.
      repeat split; [exact Hf | exact Hid | now right].
Qed.

Lemma selectedTimer_defined (st : State) :
  timers st <> [] -> exists t, selectedTimer st = Some t /\ t ∈ timers st.
Proof.
  intros Hne. unfold selectedTimer.
  destruct (List.find _ (timers st)) as [t|] eqn:Hf.
  - exists t. split; [reflexivity|].
    apply find_some in Hf as [Hin _]. now apply list_elem_of_In.
  - destruct (timers st) as [|a l]; [congruence|].
    exists a. split; [reflexivity | left].
Qed.

Lemma deleteTimer_selected (st : State) :
  storeInvariant st -> (1 < length (timers st))%nat ->
  selectedTimerId st ∈ timerIds st ->
  exists first rest,
    filter (fun t => id t <> selectedTimerId st) (timers st) = first :: rest /\
    deleteTimer st (selectedTimerId st)
      = setTimers (setSelectedTimerId st (id first)) (first :: rest).
Proof.
  intros Hinv Hlen Hsel.
  pose proof (deleteTimer_invariant st (selectedTimerId st) Hinv)
    as (Hne & _ & _).
  rewrite deleteTimer_timers in Hne by exact Hlen.
  destruct Hinv as (_ & Hnd & Hissued).
  apply list_elem_of_fmap in Hsel as (t & Hid & Hin).
  pose proof (length_filter_lt (fun t => id t <> selectedTimerId st)
                (timers st) t Hin) as Hlt.
  assert (Hnot : ~ id t <> selectedTimerId st) by (intros Hn; now apply Hn).
  specialize (Hlt Hnot).
  destruct (filter (fun t => id t <> selectedTimerId st) (timers st))
    as [|first rest] eqn:Hfilter; [congruence|].
  exists first, rest. split; [reflexivity|].
  unfold deleteTimer.
  destruct (Nat.leb_spec (length (timers st)) 1); [lia|].
  rewrite Hfilter.
  destruct (Nat.eqb_spec (length (first :: rest)) (length (timers st)));
    [lia|].
  rewrite bool_decide_eq_true_2 by reflexivity.
  assert (Hfirst : first ∈ timers st).
  { assert (Hf : first ∈ filter (fun t => id t <> selectedTimerId st) (timers st))
      by (rewrite Hfilter; left).
    now apply list_elem_of_filter in Hf as [_ ?]. }
  rewrite Forall_forall in Hissued.
  destruct (Hissued (id first)) as (k & -> & _).
  { unfold timerIds. now apply list_elem_of_fmap_2. }
  now rewrite timerIdOf_truthy.
Qed.

Lemma dispatch_selection (tz : Z -> bool -> Z) (st : State) (i : Intent) :
  storeInvariant st -> uiIssued st i ->
  selectedTimerId st ∈ timerIds st ->
  selectedTimerId (dispatch tz st i) ∈ timerIds (dispatch tz st i).
Proof.
  intros Hinv Hui Hsel.
  assert (Hsame : forall st',
            timerIds st' = timerIds st ->
            selectedTimerId st' = selectedTimerId st ->
            selectedTimerId st' ∈ timerIds st')
    by (intros st' -> ->; exact Hsel).
  destruct i; simpl in Hui; cbn [dispatch];
    try (apply Hsame; reflexivity); try exact Hui.
  - unfold timerIds. simpl. rewrite fmap_app. apply elem_of_app. right.
    simpl. left.
  - destruct (Nat.leb_spec (length (timers st)) 1) as [Hle|Hgt].
    { now rewrite deleteTimer_single. }
    destruct (decide (selectedTimerId st = timerId)) as [<-|Hne].
    + destruct (deleteTimer_selected st Hinv Hgt Hsel)
        as (first & rest & _ & ->).
      unfold timerIds. simpl. left.
    + unfold timerIds. rewrite deleteTimer_timers by exact Hgt.
      assert (Hkeep : selectedTimerId (deleteTimer st timerId)
                      = selectedTimerId st).
      { unfold deleteTimer.
        destruct (length (timers st) <=? 1)%nat; [reflexivity|].
        destruct (_ =? _)%nat; [reflexivity|].
        now rewrite bool_decide_eq_false_2 by exact Hne. }
      rewrite Hkeep.
      apply list_elem_of_fmap in Hsel as (t & Hid & Hin).
      apply list_elem_of_fmap. exists t. split; [exact Hid|].
      apply list_elem_of_filter. split; [congruence | exact Hin].
  - apply Hsame; [|reflexivity].
    apply updateTimer_ids. intros t. apply setModeUpdater_id.
  - destruct (selectedTimer st) as [t|]; [|exact Hsel].
    destruct (running t).
    + apply Hsame; [|reflexivity].
      apply updateTimer_ids. intros t'. apply pauseUpdater_id.
    + apply Hsame; [apply startSelectedTimer_ids|].
      unfold startSelectedTimer.
      now destruct (0 <? length (keypadDigits st))%nat.
  - apply Hsame; [|reflexivity].
    apply updateTimer_ids. intros t. apply clearUpdater_id.
  - apply Hsame; [apply changeAllowNegativeTime_ids|].
    unfold changeAllowNegativeTime, watchdog.
    destruct (Bool.eqb b (allowNegativeTime st)); [reflexivity|].
    simpl. now destruct b.
  - apply Hsame; [apply watchdog_ids|].
    unfold watchdog. now destruct (allowNegativeTime st).
Qed.

Lemma uiReachable_selection (tz : Z -> bool -> Z) (st : State) :
  uiReachable tz st -> selectedTimerId st ∈ timerIds st.
Proof.
  induction 1 as [|st i Hreach IH Hui].
  - apply list_elem_of_lookup. exists 0%nat. reflexivity.
  - apply dispatch_selection; [|exact Hui | exact IH].
    apply (reachable_invariant tz), uiReachable_reachable, Hreach.
Qed.

(** X10: in every state the application reaches, [selectedTimer] is a
    timer of the list, never [undefined]; when timers are selected and
    deleted through their own cards, the selected id names a timer of the
    list and [selectedTimer] is that timer. *)
Theorem selectedTimer_resolves (tz : Z -> bool -> Z) (st : State) :
  (reachable tz st ->
     exists t, selectedTimer st = Some t /\ t ∈ timers st) /\
  (uiReachable tz st ->
     selectedTimerId st ∈ timerIds st /\
     exists t, selectedTimer st = Some t /\ t ∈ timers st /\
               id t = selectedTimerId st).
Proof.
  split.
  - intros Hreach. apply selectedTimer_defined.
    now destruct (reachable_invariant tz st Hreach) as (Hne & _).
  - intros Hui. pose proof (uiReachable_selection tz st Hui) as Hsel.
    split; [exact Hsel|].
    destruct (find_by_id _ _ Hsel) as (t & Hf & Hid & Hin).
    exists t. unfold selectedTimer. rewrite Hf. now repeat split.
Qed.

Lemma selectedTimer_resolves_witness :
  (exists t,
     selectedTimer (run utcZone initialState [SelectTimer "T9"]) = Some t /\
     t ∈ timers (run utcZone initialState [SelectTimer "T9"])) /\
  selectedTimerId (dispatch utcZone initialState (DeleteTimer "T1"))
    ∈ timerIds (dispatch utcZone initialState (DeleteTimer "T1")).
Proof.
  split.
  - destruct (selectedTimer_resolves utcZone
                (run utcZone initialState [SelectTimer "T9"])) as [H _].
    apply H. eexists. reflexivity.
  - destruct (selectedTimer_resolves utcZone
                (dispatch utcZone initialState (DeleteTimer "T1")))
      as [_ H].
    destruct H as [H _]; [|exact H].
    apply uiReachable_step; [apply uiReachable_initial|].
    apply list_elem_of_lookup. exists 0%nat. reflexivity.
Defined.

(** X11: deleting the selected timer of a list of several, in a state the
    application reaches, removes it and moves the selection to the first of
    the timers that remain. *)
Theorem deleteTimer_selected_moves_selection (tz : Z -> bool -> Z) (st : State) :
  reachable tz st -> (1 < length (timers st))%nat ->
  selectedTimerId st ∈ timerIds st ->
  exists first rest,
    timers (deleteTimer st (selectedTimerId st)) = first :: rest /\
    first :: rest
      = filter (fun t => id t <> selectedTimerId st) (timers st) /\
    selectedTimerId (deleteTimer st (selectedTimerId st)) = id first /\
    (selectedTimerId st ∉ timerIds (deleteTimer st (selectedTimerId st))) /\
    length (first :: rest) = (length (timers st) - 1)%nat.
Proof.
  intros Hreach Hlen Hsel.
  pose proof (reachable_invariant tz st Hreach) as Hinv.
  destruct (deleteTimer_selected st Hinv Hlen Hsel)
    as (first & rest & Hfilter & Hdel).
  exists first, rest. rewrite Hdel.
  cbn [timers selectedTimerId setTimers setSelectedTimerId].
  split; [reflexivity|]. split; [now rewrite Hfilter|].
  split; [reflexivity|]. split.
  - unfold timerIds. cbn [timers setTimers]. rewrite <- Hfilter.
    intros Hin. apply list_elem_of_fmap in Hin as (t & Hid & Ht).
    apply list_elem_of_filter in Ht as [Hne _]. congruence.
  - destruct Hinv as (_ & Hnd & _).
    apply list_elem_of_fmap in Hsel as (t & Hid & Hin).
    destruct (filter_id_split (selectedTimerId st) _ t Hnd Hin)
      as (l1 & l2 & Heq & Hf); [congruence|].
    rewrite <- Hfilter, Hf, Heq, !length_app. simpl. lia.
Qed.

Lemma deleteTimer_selected_moves_selection_witness :
  selectedTimerId (deleteTimer initialState "T1") = "T2"%string.
Proof.
  destruct (deleteTimer_selected_moves_selection utcZone initialState)
    as (first & rest & Ht & _ & Hs & _).
  - exists []. reflexivity.
  - simpl. lia.
  - apply list_elem_of_lookup. exists 0%nat. reflexivity.
  - change (selectedTimerId initialState) with "T1"%string in Ht, Hs.
    rewrite Hs. injection Ht as <- _. reflexivity.
Defined.

Lemma find_fresh_snoc (sel : string) (l : list Timer) (t : Timer) :
  sel ∉ id <$> l -> id t = sel ->
  List.find (fun t => bool_decide (id t = sel)) (l ++ [t]) = Some t.
Proof.
  intros Hfresh Hid. induction l as [|a l IH]; simpl.
  - now rewrite bool_decide_eq_true_2.
  - rewrite fmap_cons, not_elem_of_cons in Hfresh.
    destruct Hfresh as [Hne Hfresh].
    rewrite bool_decide_eq_false_2 by congruence. now apply IH.
Qed.

(** X12: in every state the application reaches, [addTimer] issues an id
    that no timer of the list bears, keeps the timers there are, and makes
    the new timer, paused in [CountUp] mode with nothing banked, the
    selected one. *)
Theorem addTimer_fresh_and_selected (tz : Z -> bool -> Z) (st : State) :
  reachable tz st ->
  (timerIdOf (nextTimerNumber st) ∉ timerIds st) /\
  timers (addTimer st)
    = timers st ++ [makeTimer (timerIdOf (nextTimerNumber st))
                      (timerLabelOf (nextTimerNumber st))] /\
  selectedTimer (addTimer st)
    = Some (makeTimer (timerIdOf (nextTimerNumber st))
              (timerLabelOf (nextTimerNumber st))) /\
  NoDup (timerIds (addTimer st)) /\
  forall i t, timers st !! i = Some t -> timers (addTimer st) !! i = Some t.
Proof.
  intros Hreach.
  pose proof (reachable_invariant tz st Hreach) as Hinv.
  pose proof (addTimer_invariant st Hinv) as (_ & Hnd' & _).
  destruct Hinv as (_ & Hnd & Hissued).
  assert (Hfresh : timerIdOf (nextTimerNumber st) ∉ timerIds st).
  { intros Hin. rewrite Forall_forall in Hissued.
    destruct (Hissued _ Hin) as (k & Hk & Hlt).
    apply timerIdOf_inj in Hk. lia. }
  split; [exact Hfresh|]. split; [reflexivity|]. split; [|split].
  - unfold selectedTimer. simpl.
    now rewrite find_fresh_snoc.
  - exact Hnd'.
  - intros i t Hi. simpl. now apply lookup_app_l_Some.
Qed.

Lemma addTimer_fresh_and_selected_witness :
  selectedTimer (addTimer initialState) = Some (makeTimer "T3" "Timer 3").
Proof.
  destruct (addTimer_fresh_and_selected utcZone initialState)
    as (_ & _ & H & _); [exists []; reflexivity | exact H].
Defined.

(** ** The time projection over time *)

(** X13: as the clock advances, the display of a [CountUp] timer never
    decreases and that of a [CountDown] or [CountTo] timer never increases;
    the display of a timer that is not running does not depend on the clock;
    and the display without negative time is the display with negative time
    clamped at [0], except in [CountUp] mode where the two agree. *)
Theorem computeDisplayMs_over_time (t : Timer) (now1 now2 : Z)
    (allowNeg : bool) :
  now1 <= now2 ->
  (mode t = CountUp ->
     computeDisplayMs t now1 allowNeg <= computeDisplayMs t now2 allowNeg) /\
  (mode t <> CountUp ->
     computeDisplayMs t now2 allowNeg <= computeDisplayMs t now1 allowNeg) /\
  (running t = false ->
     computeDisplayMs t now1 allowNeg = computeDisplayMs t now2 allowNeg) /\
  (mode t <> CountUp ->
     computeDisplayMs t now1 false = Z.max 0 (computeDisplayMs t now1 true)) /\
  (mode t = CountUp ->
     computeDisplayMs t now1 false = computeDisplayMs t now1 true).
Proof.
  intros Hle. unfold computeDisplayMs.
  timer_cases t; destruct tmode, allowNeg;
    repeat split; intros; try congruence; try lia.
Qed.

Lemma computeDisplayMs_over_time_witness :
  computeDisplayMs
    {| id := "T1"; label := "Timer 1"; mode := CountDown; running := true;
       startEpochMs := Some 1000; baseMs := 0; countdownInitialMs := 6000;
       countToTargetEpochMs := None |} 3000 false
  <= computeDisplayMs
    {| id := "T1"; label := "Timer 1"; mode := CountDown; running := true;
       startEpochMs := Some 1000; baseMs := 0; countdownInitialMs := 6000;
       countToTargetEpochMs := None |} 2000 false.
Proof.
  destruct (computeDisplayMs_over_time
    {| id := "T1"; label := "Timer 1"; mode := CountDown; running := true;
       startEpochMs := Some 1000; baseMs := 0; countdownInitialMs := 6000;
       countToTargetEpochMs := None |} 2000 3000 false) as (_ & H & _);
    [lia | apply H; discriminate].
Defined.

(** ** The watchdog on [CountTo] timers and after a stop *)

(** X14: the watchdog step stops a running [CountTo] timer with a target
    exactly when the clock has reached the target, leaving [running = false],
    [startEpochMs = null] and [baseMs = 0]; before the target, and without
    a target, it leaves the timer as it is. *)
Theorem watchdogStep_CountTo (t : Timer) (now : Z) :
  running t = true -> mode t = CountTo ->
  (countToTargetEpochMs t = None -> watchdogStep now t = t) /\
  (forall target, countToTargetEpochMs t = Some target ->
     (now < target -> watchdogStep now t = t) /\
     (target <= now ->
        watchdogStep now t
        = {| id := id t; label := label t; mode := CountTo;
             running := false; startEpochMs := None; baseMs := 0;
             countdownInitialMs := countdownInitialMs t;
             countToTargetEpochMs := Some target |})).
Proof.
  intros Hrun Hmode. unfold watchdogStep. rewrite Hrun, Hmode. simpl.
  split.
  - now intros ->.
  - intros target ->. split; intros Hcmp.
    + destruct (Z.ltb_spec 0 (target - now)); [reflexivity | lia].
    + destruct (Z.ltb_spec 0 (target - now)); [lia | reflexivity].
Qed.

Lemma watchdogStep_CountTo_witness :
  watchdogStep 5000
    {| id := "T1"; label := "Timer 1"; mode := CountTo; running := true;
       startEpochMs := Some 1000; baseMs := 4000; countdownInitialMs := 0;
       countToTargetEpochMs := Some 5000 |}
  = {| id := "T1"; label := "Timer 1"; mode := CountTo; running := false;
       startEpochMs := None; baseMs := 0; countdownInitialMs := 0;
       countToTargetEpochMs := Some 5000 |}.
Proof.
  destruct (watchdogStep_CountTo
    {| id := "T1"; label := "Timer 1"; mode := CountTo; running := true;
       startEpochMs := Some 1000; baseMs := 4000; countdownInitialMs := 0;
       countToTargetEpochMs := Some 5000 |} 5000 eq_refl eq_refl) as [_ H].
  destruct (H 5000 eq_refl) as [_ Hstop]. apply Hstop. lia.
Defined.

(** X15: a timer the watchdog step has changed is stopped, was not in
    [CountUp] mode, and displays [0] at every later clock reading under
    either negative-time setting; a second step at the same clock reading
    changes nothing more. *)
Theorem watchdogStep_stopped (t : Timer) (now : Z) :
  (watchdogStep now t <> t ->
     running t = true /\ mode t <> CountUp /\
     running (watchdogStep now t) = false /\
     startEpochMs (watchdogStep now t) = None /\
     forall now' allowNeg,
       computeDisplayMs (watchdogStep now t) now' allowNeg = 0) /\
  watchdogStep now (watchdogStep now t) = watchdogStep now t.
Proof.
  unfold watchdogStep.
  destruct (running t) eqn:Hrun; simpl; [|rewrite Hrun; split; [congruence|reflexivity]].
  destruct (mode t) eqn:Hmode; simpl.
  - rewrite Hrun, Hmode. split; [congruence | reflexivity].
  - destruct (0 <? computeDisplayMs t now false) eqn:Hpos; simpl.
    + rewrite Hrun, Hmode. simpl. rewrite Hpos. split; [congruence|reflexivity].
    + split; [|reflexivity]. intros _. repeat split; try congruence.
      intros now' allowNeg. unfold computeDisplayMs. simpl.
      destruct allowNeg; lia.
  - destruct (countToTargetEpochMs t) as [target|] eqn:Htarget; simpl.
    + destruct (0 <? target - now) eqn:Hpos; simpl.
      * rewrite Hrun, Hmode, Htarget. simpl. rewrite Hpos.
        split; [congruence|reflexivity].
      * split; [|reflexivity]. intros _. repeat split; try congruence.
        intros now' allowNeg. unfold computeDisplayMs. simpl.
        destruct allowNeg; lia.
    + rewrite Hrun, Hmode, Htarget. split; [congruence|reflexivity].
Qed.

Lemma watchdogStep_stopped_witness :
  computeDisplayMs
    (watchdogStep 7000
       {| id := "T1"; label := "Timer 1"; mode := CountDown; running := true;
          startEpochMs := Some 1000; baseMs := 0; countdownInitialMs := 6000;
          countToTargetEpochMs := None |}) 9000 true = 0.
Proof.
  destruct (watchdogStep_stopped
       {| id := "T1"; label := "Timer 1"; mode := CountDown; running := true;
          startEpochMs := Some 1000; baseMs := 0; countdownInitialMs := 6000;
          countToTargetEpochMs := None |} 7000) as [H _].
  destruct H as (_ & _ & _ & _ & Hzero); [discriminate | apply Hzero].
Defined.

(** ** A timer from start to stop *)

(** X16: a [CountDown] timer started at [now] with a typed duration [D]
    displays [D - (now' - now)] at a later clock reading [now'], clamped at
    [0] unless negative time is allowed, and the watchdog step leaves it
    running before [now + D] and stops it from [now + D] on. *)
Theorem countdown_from_start_to_stop (tz : Z -> bool -> Z) (t : Timer)
    (x : Hms) (allowNeg : bool) (now nowDate now' : Z) :
  running t = false -> mode t = CountDown -> now <= now' ->
  let started := startUpdater tz (Some x) allowNeg now nowDate t in
  computeDisplayMs started now' true = hmsToMs x - (now' - now) /\
  computeDisplayMs started now' false = Z.max 0 (hmsToMs x - (now' - now)) /\
  (now' < now + hmsToMs x -> watchdogStep now' started = started) /\
  (now + hmsToMs x <= now' ->
     running (watchdogStep now' started) = false /\
     baseMs (watchdogStep now' started) = hmsToMs x /\
     countdownInitialMs (watchdogStep now' started) = hmsToMs x).
Proof.
  intros Hrun Hmode Hle started.
  assert (Hstarted : started
    = {| id := id t; label := label t; mode := CountDown; running := true;
         startEpochMs := Some now; baseMs := 0;
         countdownInitialMs := hmsToMs x;
         countToTargetEpochMs := countToTargetEpochMs t |}).
  { unfold started, startUpdater. now rewrite Hrun, Hmode. }
  rewrite Hstarted. unfold watchdogStep, computeDisplayMs. simpl.
  repeat split; try lia; intros;
    match goal with
    | |- context [0 <? ?v] => destruct (Z.ltb_spec 0 v)
    end; try reflexivity; lia.
Qed.

Lemma countdown_from_start_to_stop_witness :
  running
    (watchdogStep 91000
       (startUpdater utcZone (Some {| h := 0; m := 1; s := 30 |}) false
          1000 1000
          {| id := "T1"; label := "Timer 1"; mode := CountDown;
             running := false; startEpochMs := None; baseMs := 0;
             countdownInitialMs := 0; countToTargetEpochMs := None |}))
  = false.
Proof.
  destruct (countdown_from_start_to_stop utcZone
          {| id := "T1"; label := "Timer 1"; mode := CountDown;
             running := false; startEpochMs := None; baseMs := 0;
             countdownInitialMs := 0; countToTargetEpochMs := None |}
          {| h := 0; m := 1; s := 30 |} false 1000 1000 91000
          eq_refl eq_refl) as (_ & _ & _ & H); [lia|].
  destruct H as [Hstop _]; [unfold hmsToMs; simpl; lia | exact Hstop].
Defined.

(** X17: a [CountUp] timer started at [now] displays, at a later clock
    reading [now'], the typed duration plus [now' - now] when digits were
    typed, and what it had banked plus [now' - now] when none were; the
    watchdog step never changes it. *)
Theorem countup_from_start (tz : Z -> bool -> Z) (t : Timer)
    (hms : option Hms) (allowNeg : bool) (now nowDate now' : Z) :
  running t = false -> mode t = CountUp -> now <= now' ->
  let started := startUpdater tz hms allowNeg now nowDate t in
  computeDisplayMs started now' allowNeg
    = match hms with
      | Some x => hmsToMs x
      | None => baseMs t
      end + (now' - now) /\
  watchdogStep now' started = started.
Proof.
  intros Hrun Hmode Hle started. unfold started, startUpdater.
  rewrite Hrun. destruct hms as [x|]; rewrite Hmode; simpl;
    unfold watchdogStep, computeDisplayMs; simpl; rewrite ?Hmode; simpl;
    (split; [lia | reflexivity]).
Qed.

Lemma countup_from_start_witness :
  computeDisplayMs
    (startUpdater utcZone None false 1000 1000
       {| id := "T1"; label := "Timer 1"; mode := CountUp; running := false;
          startEpochMs := None; baseMs := 2500; countdownInitialMs := 0;
          countToTargetEpochMs := None |}) 4000 false
  = 2500 + (4000 - 1000).
Proof.
  destruct (countup_from_start utcZone
       {| id := "T1"; label := "Timer 1"; mode := CountUp; running := false;
          startEpochMs := None; baseMs := 2500; countdownInitialMs := 0;
          countToTargetEpochMs := None |} None false 1000 1000 4000
       eq_refl eq_refl) as [H _]; [lia | exact H].
Defined.

(** X18: time spent paused does not count in [CountUp] and [CountDown]
    modes.  For a running timer started no later than the pause: paused at
    [now1], started again at [now2] and read at [now3], it displays what it
    displayed at [now1] moved by [now3 - now2], up in [CountUp] mode and down
    in [CountDown] mode (negative time allowed, so that nothing is
    clamped). *)
Theorem paused_time_does_not_count (tz : Z -> bool -> Z) (t : Timer)
    (start0 now1 now2 now3 nowDate : Z) :
  running t = true -> startEpochMs t = Some start0 ->
  start0 <= now1 -> now2 <= now3 ->
  let resumed := startUpdater tz None true now2 nowDate (pauseUpdater now1 t) in
  (mode t = CountUp ->
     computeDisplayMs resumed now3 true
       = computeDisplayMs t now1 true + (now3 - now2)) /\
  (mode t = CountDown ->
     computeDisplayMs resumed now3 true
       = computeDisplayMs t now1 true - (now3 - now2)).
Proof.
  intros Hrun Hstart Hle1 Hle2 resumed. unfold resumed.
  timer_cases t; try discriminate; injection Hstart as ->;
    (split; intros ->);
    unfold computeDisplayMs, startUpdater, pauseUpdater; simpl; lia.
Qed.

Lemma paused_time_does_not_count_witness :
  computeDisplayMs
    (startUpdater utcZone None true 9000 9000
       (pauseUpdater 3000
          {| id := "T1"; label := "Timer 1"; mode := CountUp; running := true;
             startEpochMs := Some 1000; baseMs := 0; countdownInitialMs := 0;
             countToTargetEpochMs := None |})) 9500 true
  = computeDisplayMs
      {| id := "T1"; label := "Timer 1"; mode := CountUp; running := true;
         startEpochMs := Some 1000; baseMs := 0; countdownInitialMs := 0;
         countToTargetEpochMs := None |} 3000 true + (9500 - 9000).
Proof.
  destruct (paused_time_does_not_count utcZone
          {| id := "T1"; label := "Timer 1"; mode := CountUp; running := true;
             startEpochMs := Some 1000; baseMs := 0; countdownInitialMs := 0;
             countToTargetEpochMs := None |} 1000 3000 9000 9500 9000
          eq_refl eq_refl) as [H _]; [lia | lia | exact (H eq_refl)].
Defined.

(** X19: what a paused [CountTo] timer shows.  Started at [now0] with a
    target not yet reached, the timer shows [target - now1] while running;
    paused at [now1] it banks the time it ran on top of the snapshot taken
    at the start, and shows [(target - now0) + (now1 - now0)] until it is
    started again. *)
Theorem countTo_paused_snapshot (tz : Z -> bool -> Z) (t : Timer)
    (target now0 nowDate now1 now' : Z) (allowNeg : bool) :
  running t = false -> mode t = CountTo ->
  countToTargetEpochMs t = Some target -> now0 <= target ->
  let started := startUpdater tz None allowNeg now0 nowDate t in
  let paused := pauseUpdater now1 started in
  computeDisplayMs started now1 true = target - now1 /\
  running paused = false /\
  baseMs paused = (target - now0) + (now1 - now0) /\
  computeDisplayMs paused now' true = (target - now0) + (now1 - now0).
Proof.
  intros Hrun Hmode Htarget Hle started paused.
  unfold paused, started. clear paused started.
  destruct t as [tid tlabel tmode trun tstart tbase tinit ttarget].
  simpl in Hrun, Hmode, Htarget. subst trun tmode ttarget.
  unfold startUpdater, pauseUpdater, computeDisplayMs.
  destruct allowNeg; simpl; repeat split; lia.
Qed.

Lemma countTo_paused_snapshot_witness :
  computeDisplayMs
    (pauseUpdater 4000
       (startUpdater utcZone None false 1000 1000
          {| id := "T1"; label := "Timer 1"; mode := CountTo;
             running := false; startEpochMs := None; baseMs := 0;
             countdownInitialMs := 0; countToTargetEpochMs := Some 10000 |}))
    5000 true
  = (10000 - 1000) + (4000 - 1000).
Proof.
  destruct (countTo_paused_snapshot utcZone
          {| id := "T1"; label := "Timer 1"; mode := CountTo;
             running := false; startEpochMs := None; baseMs := 0;
             countdownInitialMs := 0; countToTargetEpochMs := Some 10000 |}
          10000 1000 1000 4000 5000 false eq_refl eq_refl eq_refl)
    as (_ & _ & _ & H); [lia | exact H].
Defined.

(** ** Independence of the timers *)

(** X20: no action of the user other than deleting a timer and switching
    negative time off changes a timer that is not the selected one: adding a
    timer, selecting, switching the mode, starting, pausing, clearing,
    typing, choosing the clear behaviour and allowing negative time leave
    every timer whose id differs from the selected id as it is, at its
    place in the list.  (Switching negative time off runs the watchdog,
    which, like the tick, may stop any timer.) *)
Theorem other_timers_untouched (tz : Z -> bool -> Z) (st : State) (i : Intent)
    (idx : nat) (t : Timer) :
  timers st !! idx = Some t -> id t <> selectedTimerId st ->
  (forall timerId, i <> DeleteTimer timerId) ->
  (forall clock, i <> Tick clock) ->
  (forall clock, i <> SetAllowNegativeTime false clock) ->
  timers (dispatch tz st i) !! idx = Some t.
Proof.
  intros Hi Hne Hdel Htick Hoff.
  assert (Hupd : forall f,
            updateTimer (selectedTimerId st) f (timers st) !! idx = Some t).
  { intros f. rewrite (updateTimer_lookup _ _ _ _ _ Hi).
    now rewrite bool_decide_eq_false_2. }
  destruct i; cbn [dispatch]; try exact Hi.
  - simpl. now apply lookup_app_l_Some.
  - now specialize (Hdel timerId).
  - apply Hupd.
  - destruct (selectedTimer st) as [sel|]; [|exact Hi].
    destruct (running sel); [apply Hupd|].
    unfold startSelectedTimer.
    destruct (0 <? length (keypadDigits st))%nat; simpl;
      rewrite list_lookup_fmap, Hi; simpl;
      now rewrite bool_decide_eq_true_2.
  - apply Hupd.
  - destruct b; [|now specialize (Hoff clock)].
    unfold changeAllowNegativeTime, watchdog.
    destruct (Bool.eqb true (allowNegativeTime st)); exact Hi.
  - now specialize (Htick clock).
Qed.

Lemma other_timers_untouched_witness :
  timers (dispatch utcZone
            (run utcZone initialState
               [SelectTimer "T2"; SetMode CountDown 0; AppendDigit "5";
                StartOrPause 1000 1000; SelectTimer "T1"])
            (StartOrPause 9000 9000)) !! 1%nat
  = Some {| id := "T2"; label := "Timer 2"; mode := CountDown;
            running := true; startEpochMs := Some 1000; baseMs := 0;
            countdownInitialMs := 5000; countToTargetEpochMs := None |}.
Proof.
  apply (other_timers_untouched utcZone
           (run utcZone initialState
              [SelectTimer "T2"; SetMode CountDown 0; AppendDigit "5";
               StartOrPause 1000 1000; SelectTimer "T1"])
           (StartOrPause 9000 9000) 1%nat);
    [reflexivity | discriminate | discriminate | discriminate | discriminate].
Defined.

(** ** The display after a clear *)

(** X21: what a timer displays once cleared, at any clock reading and under
    either negative-time setting: [0] under [resetAll]; under [keepTarget],
    [0] in [CountUp] and [CountTo] modes and the whole countdown duration in
    [CountDown] mode. *)
Theorem clearUpdater_display (behavior : ClearBehavior) (t : Timer) (now : Z)
    (allowNeg : bool) :
  0 <= countdownInitialMs t ->
  computeDisplayMs (clearUpdater behavior t) now allowNeg
  = match behavior, mode t with
    | keepTarget, CountDown => countdownInitialMs t
    | _, _ => 0
    end.
Proof.
  intros Hcd. unfold computeDisplayMs.
  destruct behavior; simpl; destruct (mode t), allowNeg;
    try destruct (countToTargetEpochMs t); lia.
Qed.

Lemma clearUpdater_display_witness :
  computeDisplayMs
    (clearUpdater keepTarget
       {| id := "T1"; label := "Timer 1"; mode := CountDown; running := true;
          startEpochMs := Some 1000; baseMs := 250; countdownInitialMs := 6000;
          countToTargetEpochMs := None |}) 99000 false = 6000.
Proof.
  apply (clearUpdater_display keepTarget
       {| id := "T1"; label := "Timer 1"; mode := CountDown; running := true;
          startEpochMs := Some 1000; baseMs := 250; countdownInitialMs := 6000;
          countToTargetEpochMs := None |} 99000 false).
  simpl. lia.
Defined.

(** ** The clock text *)

(** X22: [formatClockFromEpochMs] always gives the eight characters of
    [HH:MM:SS], and reading them back through the keypad parser gives the
    hours, minutes and seconds of the local clock at that instant. *)
Theorem formatClockFromEpochMs_roundtrip (tz : Z -> bool -> Z) (epochMs : Z) :
  String.length (formatClockFromEpochMs tz epochMs) = 8%nat /\
  parseKeypadDigitsToHms
    (list_ascii_of_string (formatClockFromEpochMs tz epochMs))
  = {| h := JSDate.getHours tz epochMs;
       m := JSDate.getMinutes tz epochMs;
       s := JSDate.getSeconds tz epochMs |} /\
  0 <= JSDate.getHours tz epochMs < 24 /\
  0 <= JSDate.getMinutes tz epochMs < 60 /\
  0 <= JSDate.getSeconds tz epochMs < 60.
Proof.
  assert (Hh : 0 <= JSDate.getHours tz epochMs < 24)
    by (unfold JSDate.getHours, JSDate.HourFromTime; apply Z.mod_pos_bound; lia).
  assert (Hm : 0 <= JSDate.getMinutes tz epochMs < 60)
    by (unfold JSDate.getMinutes, JSDate.MinFromTime; apply Z.mod_pos_bound; lia).
  assert (Hs : 0 <= JSDate.getSeconds tz epochMs < 60)
    by (unfold JSDate.getSeconds, JSDate.SecFromTime; apply Z.mod_pos_bound; lia).
  unfold formatClockFromEpochMs. repeat split; try lia.
  - rewrite !pad2_two_digits by lia. reflexivity.
  - apply parse_of_clock_text; lia.
Qed.

(** ** The action button *)

Lemma find_map_by_id (sel : string) (f : Timer -> Timer) (l : list Timer) :
  (forall t, id (f t) = id t) ->
  List.find (fun t => bool_decide (id t = sel)) (map f l)
  = f <$> List.find (fun t => bool_decide (id t = sel)) l.
Proof.
  intros Hf. induction l as [|a l IH]; [reflexivity|]. simpl.
  rewrite Hf. destruct (bool_decide (id a = sel)); [reflexivity | exact IH].
Qed.

(** X23: when timers are selected and deleted through their own cards, the
    action button always toggles the selected timer: a running one is
    paused, a paused one is started, and it remains the selected timer. *)
Theorem action_button_toggles (tz : Z -> bool -> Z) (st : State)
    (now nowDate : Z) :
  uiReachable tz st ->
  exists t t',
    selectedTimer st = Some t /\
    selectedTimer (dispatch tz st (StartOrPause now nowDate)) = Some t' /\
    id t' = id t /\
    running t' = negb (running t) /\
    (running t = true -> t' = pauseUpdater now t) /\
    (running t = false -> startEpochMs t' = Some now).
Proof.
  intros Hui.
  pose proof (uiReachable_selection tz st Hui) as Hsel.
  destruct (find_by_id _ _ Hsel) as (t & Hf & Hid & Hin).
  assert (Hst : selectedTimer st = Some t)
    by (unfold selectedTimer; now rewrite Hf).
  cbn [dispatch]. rewrite Hst.
  destruct (running t) eqn:Hrun.
  - exists t, (pauseUpdater now t). split; [reflexivity|].
    split; [|split; [apply pauseUpdater_id|split; [|split; [reflexivity|intros; congruence]]]].
    + unfold selectedTimer, pauseTimer, updateTimer. cbn [timers selectedTimerId setTimers].
      rewrite find_map_by_id, Hf.
      * simpl. now rewrite bool_decide_eq_true_2.
      * intros a. destruct (bool_decide _); [apply pauseUpdater_id | reflexivity].
    + rewrite Hrun. unfold pauseUpdater. now rewrite Hrun.
  - set (hms := if (0 <? length (keypadDigits st))%nat
                then Some (parseKeypadDigitsToHms (keypadDigits st))
                else None).
    exists t, (startUpdater tz hms (allowNegativeTime st) now nowDate t).
    split; [reflexivity|].
    split; [|split; [apply startUpdater_id|]].
    + unfold selectedTimer, startSelectedTimer. fold hms.
      assert (Hfind :
        List.find (fun t0 => bool_decide (id t0 = selectedTimerId st))
          (map (fun t0 =>
                  if bool_decide (id t0 <> selectedTimerId st) then t0
                  else startUpdater tz hms (allowNegativeTime st) now nowDate t0)
               (timers st))
        = Some (startUpdater tz hms (allowNegativeTime st) now nowDate t)).
      { rewrite find_map_by_id, Hf.
        - simpl. rewrite bool_decide_eq_false_2; [reflexivity|].
          intros Hn. now apply Hn.
        - intros a. destruct (bool_decide _); [reflexivity | apply startUpdater_id]. }
      destruct (0 <? length (keypadDigits st))%nat;
        cbn [timers selectedTimerId setTimers setKeypadDigits];
        now rewrite Hfind.
    + rewrite Hrun. unfold startUpdater. rewrite Hrun.
      repeat split; congruence.
Qed.

Lemma action_button_toggles_witness :
  exists t t',
    selectedTimer initialState = Some t /\
    selectedTimer (dispatch utcZone initialState (StartOrPause 1000 1000))
      = Some t' /\
    running t' = negb (running t).
Proof.
  destruct (action_button_toggles utcZone initialState 1000 1000)
    as (t & t' & H1 & H2 & _ & H3 & _); [apply uiReachable_initial|].
  exists t, t'. repeat split; assumption.
Defined.

(** ** After a pass of the watchdog *)

(** X24: after a pass of the watchdog with negative time disallowed, no
    timer is left running at its end: a timer still running in [CountDown]
    mode has a positive display at the clock reading it was checked at, and
    one still running in [CountTo] mode with a target has not reached it. *)
Theorem watchdog_leaves_no_expired_timer (st : State) (clock : nat -> Z)
    (i : nat) (t' : Timer) :
  allowNegativeTime st = false ->
  timers (watchdog st clock) !! i = Some t' -> running t' = true ->
  (mode t' = CountDown -> 0 < computeDisplayMs t' (clock i) false) /\
  (mode t' = CountTo ->
     forall target, countToTargetEpochMs t' = Some target ->
                    clock i < target).
Proof.
  intros Hoff Hi Hrun.
  rewrite watchdog_lookup in Hi by exact Hoff.
  destruct (timers st !! i) as [t|]; [|discriminate].
  injection Hi as <-. revert Hrun. unfold watchdogStep.
  destruct (running t) eqn:Hr; simpl; [|congruence].
  destruct (mode t) eqn:Hmode.
  - intros _. rewrite Hmode. split; discriminate.
  - destruct (Z.ltb_spec 0 (computeDisplayMs t (clock i) false));
      [|discriminate].
    intros _. rewrite Hmode. split; [now intros _ | discriminate].
  - destruct (countToTargetEpochMs t) as [target|] eqn:Htarget.
    + destruct (Z.ltb_spec 0 (target - clock i)); [|discriminate].
      intros _. rewrite Hmode, Htarget. split; [discriminate|].
      intros _ tg [= <-]. lia.
    + intros _. rewrite Hmode, Htarget. split; discriminate.
Qed.

Lemma watchdog_leaves_no_expired_timer_witness :
  0 < computeDisplayMs
        {| id := "T1"; label := "Timer 1"; mode := CountDown; running := true;
           startEpochMs := Some 1000; baseMs := 0; countdownInitialMs := 6000;
           countToTargetEpochMs := None |} 2000 false.
Proof.
  destruct (watchdog_leaves_no_expired_timer
    {| timers := [{| id := "T1"; label := "Timer 1"; mode := CountDown;
                     running := true; startEpochMs := Some 1000; baseMs := 0;
                     countdownInitialMs := 6000;
                     countToTargetEpochMs := None |}];
       selectedTimerId := "T1"; keypadDigits := []; clearBehavior := resetAll;
       allowNegativeTime := false; nextTimerNumber := 2 |}
    (fun _ => 2000) 0%nat
    {| id := "T1"; label := "Timer 1"; mode := CountDown; running := true;
       startEpochMs := Some 1000; baseMs := 0; countdownInitialMs := 6000;
       countToTargetEpochMs := None |} eq_refl eq_refl eq_refl) as [H _].
  exact (H eq_refl).
Defined.
